(** * YUREX BBU sensor driver (yurex.c): shallow embedding and verification

    The driver is embedded as functions in a small state-and-trace monad
    over the driver's global state ([gLock], [gDeviceCount],
    [gDeviceList]) and the heap of [device] instances.  Calls into the
    kernel and the USB stack (semaphores, [send_request],
    [queue_interrupt], [cancel_queued_transfers], [free], [dprintf]) are
    recorded, in program order, in the trace.  A dereference of a freed
    [device], a [memcpy] that leaves the session buffer and a scan that
    runs off the caller's memory have no defined result: the monad
    returns [None] for them.

    C integers are [Z] with their wrap-around written out: [uint64]
    ([bbu], [size_t], LP64), [uint32] ([gDeviceCount]), [uint8] (packet
    bytes). *)

From stdpp Require Import gmap list strings.
From Stdlib Require Import ZArith Lia.

Local Open Scope Z_scope.

(** ** Machine integers *)

Definition u8 (z : Z) : Z := z mod 2 ^ 8.
Definition u32 (z : Z) : Z := z mod 2 ^ 32.
Definition u64 (z : Z) : Z := z mod 2 ^ 64.

(** [(size_t)z]: [size_t] is 64 bits wide. *)
Definition size_t (z : Z) : Z := z mod 2 ^ 64.

Definition is_uint8 (b : Z) : Prop := 0 <= b < 256.

(** ** yurex command definition *)

Definition CMD_NONE    : Z := 0xf0.
Definition CMD_EOF     : Z := 0x0d.
Definition CMD_ACK     : Z := 0x21.
Definition CMD_MODE    : Z := 0x41.
Definition CMD_VALUE   : Z := 0x43.
Definition CMD_READ    : Z := 0x52.
Definition CMD_WRITE   : Z := 0x53.
Definition CMD_PADDING : Z := 0xff.

Definition YUREX_DEVICE_TYPE_BBU   : Z := 0.
Definition YUREX_DEVICE_TYPE_ANIME : Z := 1.

Inductive status_t := B_OK | B_ERROR.

Global Instance status_t_eq_dec : EqDecision status_t.
Proof. solve_decision. Defined.

(** ** Data model *)

(** Addresses of heap blocks; [NULL] is not an address. *)
Abbreviation ptr := positive.

(** [struct _device].  The [next] link is carried by [gDeviceList]
    below; [buf], the landing buffer of the interrupt transfer, reaches
    the code only as the [data] argument of [yurex_callback]. *)
Record device := mkDevice {
  udev       : Z;   (* usb device ID *)
  ifno       : Z;   (* interface ID *)
  ep_detect  : Z;   (* endpoint informations are valid? *)
  ep_address : Z;   (*   endpoint address *)
  ep         : Z;   (*   endpoint pipe handle *)
  sem        : Z;   (* semaphore to access work area *)
  bbu        : Z;   (*   BBU count value (in 40-bit) *)
  anime      : Z    (*   animation 0:off / 1:on *)
}.

(** [struct _dev_open]: an open handle. *)
Record dev_open := mkDevOpen {
  dev     : ptr;      (* device instance variables *)
  type    : Z;        (* device type 0:bbu / 1:anime *)
  buf     : list Z;   (* read buffer, uint8 buf[16] *)
  buf_len : Z         (* read buffer length *)
}.

(** The global variables and the heap of device instances.
    [gDeviceList] is the chain of [next] links from the list head, as the
    sequence of nodes it visits. *)
Record driver := mkDriver {
  gLock        : Z;
  gDeviceCount : Z;
  gDeviceList  : list ptr;
  devices      : gmap ptr device
}.

(** Calls that leave the driver. [send_request] is always the HID class
    request SET_REPORT to the interface; its [value], [index], [length]
    and [data] arguments are kept. *)
Inductive event :=
  | acquire_sem (id : Z)
  | release_sem (id : Z)
  | send_request (dev : Z) (value index length : Z) (data : list Z)
  | queue_interrupt (pipe : Z) (length : Z) (cookie : ptr)
  | cancel_queued_transfers (pipe : Z)
  | create_sem (id : Z)
  | get_nth_configuration (dev : Z) (index : Z)
  | set_configuration (dev : Z)
  | free (cookie : ptr)
  | dprintf (msg : string).

Global Instance event_eq_dec : EqDecision event.
Proof. solve_decision. Defined.

(** ** The monad: state, trace, undefined behaviour *)

Definition M (A : Type) : Type := driver -> option (A * driver * list event).

Global Instance M_ret : MRet M := fun A a s => Some (a, s, []).

Global Instance M_bind : MBind M := fun A B k m s =>
  match m s with
  | None => None
  | Some (a, s1, t1) =>
      match k a s1 with
      | None => None
      | Some (b, s2, t2) => Some (b, s2, t1 ++ t2)
      end
  end.

Definition call (e : event) : M unit := fun s => Some (tt, s, [e]).
Definition get : M driver := fun s => Some (s, s, []).
Definition put (s' : driver) : M unit := fun _ => Some (tt, s', []).
Definition undefined {A} : M A := fun _ => None.

(** [*dev] *)
Definition load (dev : ptr) : M device := fun s =>
  match devices s !! dev with
  | Some d => Some (d, s, [])
  | None => None
  end.

(** [*dev = d] on a live block. *)
Definition set_devices (m : gmap ptr device) (s : driver) : driver :=
  mkDriver (gLock s) (gDeviceCount s) (gDeviceList s) m.

Definition store (dev : ptr) (d : device) : M unit := fun s =>
  match devices s !! dev with
  | Some _ => Some (tt, set_devices (<[dev := d]> (devices s)) s, [])
  | None => None
  end.

Definition set_bbu (v : Z) (d : device) : device :=
  mkDevice (udev d) (ifno d) (ep_detect d) (ep_address d) (ep d) (sem d) v (anime d).
Definition set_anime (v : Z) (d : device) : device :=
  mkDevice (udev d) (ifno d) (ep_detect d) (ep_address d) (ep d) (sem d) (bbu d) v.
Definition set_ep_detect (v : Z) (d : device) : device :=
  mkDevice (udev d) (ifno d) v (ep_address d) (ep d) (sem d) (bbu d) (anime d).

(** [dev->field = ...] *)
Definition update (dev : ptr) (f : device -> device) : M unit :=
  d ← load dev; store dev (f d).

(** Statements run one after the other. *)
Fixpoint seq (body : list (M unit)) : M unit :=
  match body with
  | [] => mret tt
  | c :: rest => c ;; seq rest
  end.

(** ** yurex functions *)

(** [req[i]] on the 8-byte buffer. *)
Definition byte_at (req : list Z) (i : nat) : Z := nth i req 0.

(** [memset(req, CMD_PADDING, sizeof(req))] *)
Definition padded : list Z := replicate 8 CMD_PADDING.

Definition yurex_interrupt (dev : ptr) : M unit :=
  d ← load dev;
  call (queue_interrupt (ep d) 8 dev).

Definition yurex_set_mode (dev : ptr) (val : Z) : M unit :=
  d ← load dev;
  let req := padded in
  let req := <[0%nat := CMD_MODE]> req in
  let req := <[1%nat := u8 val]> req in
  let req := <[2%nat := CMD_EOF]> req in
  call (send_request (udev d) (Z.shiftl 2 8) (ifno d) 8 req).

Definition yurex_read_bbu (dev : ptr) : M unit :=
  d ← load dev;
  let req := padded in
  let req := <[0%nat := CMD_READ]> req in
  let req := <[1%nat := CMD_EOF]> req in
  call (send_request (udev d) (Z.shiftl 2 8) (ifno d) 8 req).

Definition yurex_write_bbu (dev : ptr) (bbu : Z) : M unit :=
  d ← load dev;
  let req := padded in
  let req := <[0%nat := CMD_WRITE]> req in
  let req := <[1%nat := Z.land (Z.shiftr bbu 32) 0xff]> req in
  let req := <[2%nat := Z.land (Z.shiftr bbu 24) 0xff]> req in
  let req := <[3%nat := Z.land (Z.shiftr bbu 16) 0xff]> req in
  let req := <[4%nat := Z.land (Z.shiftr bbu  8) 0xff]> req in
  let req := <[5%nat := Z.land (Z.shiftr bbu  0) 0xff]> req in
  let req := <[6%nat := CMD_EOF]> req in
  call (send_request (udev d) (Z.shiftl 2 8) (ifno d) 8 req).

(** [for (i = 1; i <= 5; i++) { dev->bbu <<= 8; dev->bbu += req[i]; }],
    the loop entered with [i] and run for [n] more rounds. *)
Fixpoint bbu_loop (req : list Z) (i n : nat) (acc : Z) : Z :=
  match n with
  | O => acc
  | S n' => bbu_loop req (S i) n' (u64 (u64 (Z.shiftl acc 8) + byte_at req i))
  end.

Definition yurex_callback (cookie : ptr) (status : Z) (req : list Z)
    (actualLength : Z) : M unit :=
  let dev := cookie in
  (if decide (CMD_VALUE = byte_at req 0 \/ CMD_READ = byte_at req 0) then
     d ← load dev;
     call (acquire_sem (sem d)) ;;
     update dev (set_bbu 0) ;;
     update dev (fun d => set_bbu (bbu_loop req 1 5 (bbu d)) d) ;;
     call (release_sem (sem d)) ;;
     (if decide (CMD_EOF <> byte_at req 6)
      then call (dprintf "yurex: invalid bbu delta EOF")
      else mret tt)
   else if decide (CMD_ACK = byte_at req 0 /\ CMD_WRITE = byte_at req 1) then
     yurex_read_bbu dev
   else mret tt) ;;
  (* requeue interrupt *)
  d ← load dev;
  if decide (0 <> ep_detect d) then yurex_interrupt dev else mret tt.

(** ** Text rendering: [snprintf] with ["%ld\n"] and ["%d\n"] *)

(** The decimal digits of [n >= 0], most significant first, as ASCII
    codes; [fuel] bounds the number of digits. *)
Fixpoint dec_digits (fuel : nat) (n : Z) (acc : list Z) : list Z :=
  match fuel with
  | O => acc
  | S fuel' =>
      let acc' := (48 + n mod 10) :: acc in
      if decide (n / 10 = 0) then acc' else dec_digits fuel' (n / 10) acc'
  end.

(** [(long)z] for a 64-bit [long]. *)
Definition s64 (z : Z) : Z :=
  if decide (u64 z < 2 ^ 63) then u64 z else u64 z - 2 ^ 64.

(** The conversion [%ld] (and [%d]) of a signed value. *)
Definition fmt_ld (z : Z) : list Z :=
  if decide (z < 0) then 45 :: dec_digits 20 (- z) [] else dec_digits 20 z [].

(** [snprintf(buf, size, ...)] where the conversions expand to [out]:
    at most [size - 1] characters and a terminating NUL are written over
    the front of [buf]; the result is the untruncated length. *)
Definition snprintf (buf : list Z) (size : nat) (out : list Z) : list Z * Z :=
  let written := take (size - 1) out ++ [0] in
  (written ++ drop (length written) buf, Z.of_nat (length out)).

(** [memcpy(buffer, &buf[position], len)]: the bytes copied, when the
    source range lies inside [buf]. *)
Definition memcpy_from (buf : list Z) (position len : Z) : M (list Z) :=
  if decide (len = 0) then mret []
  else if decide (0 <= position /\ position + len <= Z.of_nat (length buf))
  then mret (take (Z.to_nat len) (drop (Z.to_nat position) buf))
  else undefined.

(** ** driver hook functions: the session layer *)

(** [device_read]: the result carries the status, the handle as the call
    leaves it, the bytes stored into the caller's buffer and the value
    left in [*length]. *)
Definition device_read (cookie : dev_open) (position : Z) (length : Z)
    : M (status_t * dev_open * list Z * Z) :=
  cookie ← (if decide (0 = position) then
              d ← load (dev cookie);
              call (acquire_sem (sem d)) ;;
              let '(b, n) :=
                if decide (YUREX_DEVICE_TYPE_BBU = type cookie)
                then snprintf (buf cookie) 16 (fmt_ld (s64 (bbu d)) ++ [10])
                else snprintf (buf cookie) 16 (fmt_ld (anime d) ++ [10]) in
              call (release_sem (sem d)) ;;
              mret (mkDevOpen (dev cookie) (type cookie) b (size_t n))
            else mret cookie);
  let len := size_t (buf_len cookie - position) in
  let len := if decide (len > length) then length else len in
  data ← memcpy_from (buf cookie) position len;
  mret (B_OK, cookie, data, len).

(** The digit loop of [device_write] over the memory [mem] that starts
    at [bbu_str]: it runs while the byte read lies between the codes of
    0 and 9 and has no other exit, so it has no defined result when every
    byte of [mem] is a digit. *)
Fixpoint scan_digits (mem : list Z) (bbu : Z) : option Z :=
  match mem with
  | [] => None
  | c :: rest =>
      if decide (48 <= c /\ c <= 57)
      then scan_digits rest (u64 (u64 (bbu * 10) + (c - 48)))
      else Some bbu
  end.

(** [device_write]: [buffer] is the memory at the caller's pointer, of
    which the first [length] bytes are the data written. *)
Definition device_write (cookie : dev_open) (position : Z) (buffer : list Z)
    (length : Z) : M status_t :=
  if decide (0 = length) then mret B_OK
  else if decide (YUREX_DEVICE_TYPE_ANIME = type cookie) then
    match buffer with
    | [] => undefined
    | c :: _ =>
        if decide (48 = c) then
          d ← load (dev cookie);
          call (acquire_sem (sem d)) ;;
          update (dev cookie) (set_anime 0) ;;
          call (release_sem (sem d)) ;;
          yurex_set_mode (dev cookie) 0xff ;;
          mret B_OK
        else
          d ← load (dev cookie);
          call (acquire_sem (sem d)) ;;
          update (dev cookie) (set_anime 1) ;;
          call (release_sem (sem d)) ;;
          yurex_set_mode (dev cookie) 0x00 ;;
          mret B_OK
    end
  else
    match scan_digits buffer 0 with
    | None => undefined
    | Some bbu => yurex_write_bbu (dev cookie) bbu ;; mret B_OK
    end.

(** ** driver hook functions: the registry *)

(** [init_driver], with the id that [create_sem] hands out. *)
Definition init_driver (lock : Z) : driver := mkDriver lock 0 [] ∅.

Definition lock_global : M unit := s ← get; call (acquire_sem (gLock s)).
Definition unlock_global : M unit := s ← get; call (release_sem (gLock s)).

(** [malloc] handed out the block [dev], which [memset] then fills; a
    live block is never handed out again. *)
Definition alloc (dev : ptr) (d : device) : M unit := fun s =>
  match devices s !! dev with
  | Some _ => None
  | None => Some (tt, set_devices (<[dev := d]> (devices s)) s, [])
  end.

(** [free(cookie)] *)
Definition release (dev : ptr) : M unit := fun s =>
  match devices s !! dev with
  | Some _ => Some (tt, set_devices (delete dev (devices s)) s, [free dev])
  | None => None
  end.

(** [dev->next = gDeviceList; gDeviceList = dev;] *)
Definition push_front (dev : ptr) : M unit :=
  s ← get;
  put (mkDriver (gLock s) (gDeviceCount s) (dev :: gDeviceList s) (devices s)).

(** [gDeviceCount++] and [gDeviceCount--] on a [uint32]. *)
Definition count_add (k : Z) : M unit :=
  s ← get;
  put (mkDriver (gLock s) (u32 (gDeviceCount s + k)) (gDeviceList s) (devices s)).

(** The scan for the predecessor of [dev]: the first node whose [next]
    is [dev] gets [dev->next] as its [next]. *)
Fixpoint unlink_scan (dev : ptr) (chain : list ptr) : list ptr :=
  match chain with
  | [] => []
  | node :: rest =>
      match rest with
      | next :: after =>
          if decide (next = dev) then node :: after
          else node :: unlink_scan dev rest
      | [] => [node]
      end
  end.

(** [if (gDeviceList == dev) gDeviceList = dev->next; else { scan }] *)
Definition unlink_list (dev : ptr) (chain : list ptr) : list ptr :=
  match chain with
  | head :: rest =>
      if decide (head = dev) then rest else unlink_scan dev chain
  | [] => []
  end.

Definition unlink (dev : ptr) : M unit :=
  s ← get;
  put (mkDriver (gLock s) (gDeviceCount s)
                (unlink_list dev (gDeviceList s)) (devices s)).

(** The statements of [device_removed], in program order. *)
Definition device_removed_body (cookie : ptr) : list (M unit) :=
  let dev := cookie in
  [ (* remove instance *)
    lock_global;
    unlink dev;
    count_add (-1);
    unlock_global;
    (* flush usb transactions *)
    update dev (set_ep_detect 0);   (* forbit interrupt requeue *)
    d ← load dev; call (cancel_queued_transfers (ep d));
    (* free resource *)
    release cookie ].

Definition device_removed (cookie : ptr) : M status_t :=
  seq (device_removed_body cookie) ;; mret B_OK.

(** *** USB descriptors, as [get_nth_configuration] returns them *)

Record usb_endpoint_descriptor := mkEndpointDescriptor {
  endpoint_address : Z;
  attributes       : Z;
  max_packet_size  : Z
}.

Record usb_endpoint_info := mkEndpointInfo {
  descr  : usb_endpoint_descriptor;
  handle : Z
}.

Record usb_interface_info := mkInterfaceInfo {
  endpoint : list usb_endpoint_info
}.

Record usb_interface_list := mkInterfaceList {
  active : option usb_interface_info
}.

Record usb_configuration_info := mkConfigurationInfo {
  interface : list usb_interface_list
}.

Section DeviceAdded.

(** The two constants of USB3.h that the endpoint check uses. *)
Variable USB_ENDPOINT_ATTR_INTERRUPT : Z.
Variable USB_ENDPOINT_ADDR_DIR_IN : Z.

(** endpoint check on active interface [i] *)
Fixpoint endpoint_loop (i : Z) (eps : list usb_endpoint_info) (d : device)
    : device :=
  match eps with
  | [] => d
  | ep :: rest =>
      let epd := descr ep in
      if decide (USB_ENDPOINT_ATTR_INTERRUPT <> attributes epd \/
                 USB_ENDPOINT_ADDR_DIR_IN <>
                   Z.land (endpoint_address epd) USB_ENDPOINT_ADDR_DIR_IN \/
                 8 <> max_packet_size epd)
      then endpoint_loop i rest d
      else mkDevice (udev d) i 1 (endpoint_address epd) (handle ep)
                    (sem d) (bbu d) (anime d)
  end.

(** interface check *)
Fixpoint interface_loop (i : Z) (ifs : list usb_interface_list) (d : device)
    : device :=
  match ifs with
  | [] => d
  | entry :: rest =>
      match active entry with
      | None => interface_loop (i + 1) rest d
      | Some intf =>
          let d := endpoint_loop i (endpoint intf) d in
          if decide (0 <> ep_detect d) then d
          else interface_loop (i + 1) rest d
      end
  end.

(** [device_added].  What the environment hands back is given: the
    block from [malloc] ([None] for [NULL]), the id from [create_sem],
    the configuration from [get_nth_configuration] ([None] for [NULL])
    and the status of [set_configuration].  The result carries the
    status and [*cookie]. *)
Definition device_added (udev : Z) (block : option ptr) (sem_id : Z)
    (conf : option usb_configuration_info) (set_conf : status_t)
    : M (status_t * option ptr) :=
  match block with
  | None => mret (B_ERROR, None)
  | Some dev =>
      (* initialize instance *)
      alloc dev (mkDevice 0 0 0 0 0 0 0 0) ;;
      call (create_sem sem_id) ;;
      update dev (fun d => mkDevice udev (ifno d) (ep_detect d) (ep_address d)
                                    (ep d) sem_id (bbu d) 1) ;;
      (* add instance *)
      lock_global ;;
      push_front dev ;;
      count_add 1 ;;
      unlock_global ;;
      (* get usb device default configuration *)
      call (get_nth_configuration udev 0) ;;
      match conf with
      | None => mret (B_ERROR, Some dev)
      | Some conf =>
          update dev (interface_loop 0 (interface conf)) ;;
          d ← load dev;
          (if decide (0 = ep_detect d)
           then call (dprintf "yurex: can not find suitable endpoint")
           else mret tt) ;;
          (* set usb device configuration *)
          call (set_configuration udev) ;;
          (if decide (B_OK <> set_conf)
           then call (dprintf "yurex: can not set default configuration")
           else mret tt) ;;
          (* initialize yurex *)
          yurex_set_mode dev 0 ;;
          yurex_read_bbu dev ;;
          yurex_interrupt dev ;;
          mret (B_OK, Some dev)
      end
  end.

End DeviceAdded.

(** ** Vocabulary of the statements *)

(** The big-endian value of a byte string, accumulated as the
    specification words it: [value = value * 256 + byte]. *)
Definition big_endian (bytes : list Z) : Z :=
  fold_left (fun value byte => value * 256 + byte) bytes 0.

(** What the transport delivers into the 8-byte landing buffer. *)
Definition wf_packet (req : list Z) : Prop :=
  length req = 8%nat /\ Forall is_uint8 req.

(** The READ command as it goes out on the wire. *)
Definition read_request : list Z :=
  [CMD_READ; CMD_EOF; CMD_PADDING; CMD_PADDING; CMD_PADDING; CMD_PADDING;
   CMD_PADDING; CMD_PADDING].

(** Arming the interrupt receive is the call [queue_interrupt]. *)
Definition is_arm (e : event) : bool :=
  match e with
  | queue_interrupt _ _ _ => true
  | _ => false
  end.

Definition arm_count (t : list event) : nat := length (filter is_arm t).

(** The tail of a completion handler's trace: one [queue_interrupt] when
    the flag [ep_detect] is set, nothing otherwise. *)
Definition rearm (dev : ptr) (d : device) : list event :=
  if decide (0 <> ep_detect d) then [queue_interrupt (ep d) 8 dev] else [].

(** The WRITE command for the value [v], as the wire format lays it out. *)
Definition write_request (v : Z) : list Z :=
  [CMD_WRITE;
   v / 2 ^ 32 mod 256; v / 2 ^ 24 mod 256; v / 2 ^ 16 mod 256;
   v / 2 ^ 8 mod 256; v mod 256;
   CMD_EOF; CMD_PADDING].

(** A device in the streaming state and a driver that holds it, for the
    worked examples. *)
Definition d0 : device := mkDevice 7 0 1 129 5 11 0 1.
Definition s0 : driver := mkDriver 3 1 [1%positive] {[ 1%positive := d0 ]}.

(** The ASCII digits. *)
Definition is_digit (c : Z) : bool := (48 <=? c) && (c <=? 57).

Definition mode_request (val : Z) : list Z :=
  [CMD_MODE; val; CMD_EOF; CMD_PADDING; CMD_PADDING; CMD_PADDING;
   CMD_PADDING; CMD_PADDING].
(** The text that a read at offset 0 stages for the handle. *)
Definition staged_text (cookie : dev_open) (d : device) : list Z :=
  (if decide (YUREX_DEVICE_TYPE_BBU = type cookie)
   then fmt_ld (s64 (bbu d)) else fmt_ld (anime d)) ++ [10].

(** The maximal leading run of ASCII digits of [data]. *)
Fixpoint leading_digits (data : list Z) : list Z :=
  match data with
  | c :: rest => if is_digit c then c :: leading_digits rest else []
  | [] => []
  end.

(** The decimal number that a string of digits denotes. *)
Definition decimal_value (digits : list Z) : Z :=
  fold_left (fun value c => value * 10 + (c - 48)) digits 0.

(** The text 18446744073709551616 (2^64) and a newline. *)
Definition text_2_64 : list Z :=
  [49; 56; 52; 52; 54; 55; 52; 52; 48; 55; 51; 55; 48; 57; 53; 53; 49; 54;
   49; 54; 10].

(** The chain without its first occurrence of [dev]. *)
Fixpoint delete_first (dev : ptr) (chain : list ptr) : list ptr :=
  match chain with
  | [] => []
  | node :: rest =>
      if decide (node = dev) then rest else node :: delete_first dev rest
  end.

(** The first [k] statements of [device_removed]. *)
Definition removal_stage (k : nat) (cookie : ptr) : M unit :=
  seq (take k (device_removed_body cookie)).

(** Where a removal stands, read off the driver state and the trace. *)
Definition linked (dev : ptr) (s : driver) : Prop := dev ∈ gDeviceList s.

Definition streaming (dev : ptr) (s : driver) : Prop :=
  exists d, devices s !! dev = Some d /\ ep_detect d <> 0.

Definition cancel_requested (t : list event) : Prop :=
  exists pipe, In (cancel_queued_transfers pipe) t.

Definition released (dev : ptr) (s : driver) : Prop :=
  devices s !! dev = None.
(** The order of a removal as the specification words it: the flag is
    cleared first, the cancellation requested second, the device unlinked
    third and released last; said of every point the removal passes. *)
Definition removal_order_as_specified (s : driver) (dev : ptr) : Prop :=
  forall k s_k t_k,
    removal_stage k dev s = Some (tt, s_k, t_k) ->
    (cancel_requested t_k -> ~ streaming dev s_k) /\
    (~ linked dev s_k -> cancel_requested t_k) /\
    (released dev s_k -> ~ linked dev s_k).

(** ** The driver as a transition system *)

(** The entry points through which the kernel and the USB stack drive
    the driver, with what the environment hands in. *)
Inductive op :=
  | Added (udev : Z) (block : option ptr) (sem_id : Z)
          (conf : option usb_configuration_info) (set_conf : status_t)
  | Removed (cookie : ptr)
  | Callback (cookie : ptr) (status : Z) (req : list Z) (actualLength : Z)
  | Read (cookie : dev_open) (position length : Z)
  | Write (cookie : dev_open) (position : Z) (buffer : list Z) (length : Z).

(** The transport delivers 8-byte packets. *)
Definition admissible (o : op) : Prop :=
  match o with
  | Callback _ _ req _ => wf_packet req
  | _ => True
  end.

Section Operations.

Variable USB_ENDPOINT_ATTR_INTERRUPT : Z.
Variable USB_ENDPOINT_ADDR_DIR_IN : Z.

Definition exec (o : op) : M unit :=
  match o with
  | Added udev block sem_id conf set_conf =>
      device_added USB_ENDPOINT_ATTR_INTERRUPT USB_ENDPOINT_ADDR_DIR_IN
                   udev block sem_id conf set_conf ;; mret tt
  | Removed cookie => device_removed cookie ;; mret tt
  | Callback cookie status req actualLength =>
      yurex_callback cookie status req actualLength
  | Read cookie position length =>
      device_read cookie position length ;; mret tt
  | Write cookie position buffer length =>
      device_write cookie position buffer length ;; mret tt
  end.

(** The states the driver can be in, from [init_driver] on. *)
Inductive reachable : driver -> Prop :=
  | reachable_init (lock : Z) : reachable (init_driver lock)
  | reachable_step (s s' : driver) (o : op) (t : list event) :
      reachable s -> admissible o -> exec o s = Some (tt, s', t) ->
      reachable s'.

(** A run of entry points, one after the other. *)
Fixpoint exec_all (ops : list op) : M unit :=
  match ops with
  | [] => mret tt
  | o :: rest => exec o ;; exec_all rest
  end.

(** An endpoint that the endpoint check of [device_added] accepts. *)
Definition qualifying (epd : usb_endpoint_descriptor) : Prop :=
  USB_ENDPOINT_ATTR_INTERRUPT = attributes epd /\
  USB_ENDPOINT_ADDR_DIR_IN =
    Z.land (endpoint_address epd) USB_ENDPOINT_ADDR_DIR_IN /\
  8 = max_packet_size epd.

Definition no_qualifying_endpoint (conf : usb_configuration_info) : Prop :=
  Forall (fun entry =>
            match active entry with
            | Some intf =>
                Forall (fun ep => ~ qualifying (descr ep)) (endpoint intf)
            | None => True
            end) (interface conf).

End Operations.

(** The device as [device_added] leaves it in the heap once [memset] and
    the first assignments are done. *)
Definition fresh_device (udev sem_id : Z) : device :=
  mkDevice udev 0 0 0 0 sem_id 0 1.

(** What an entry point may do to the heap of devices: a device that is
    live afterwards either was live before, with the same flag and with
    its counter kept or, when the entry point [writes] the counter, set to
    a 40-bit value, or it is a new block with the counter at zero. *)
Definition heap_footprint (writes : bool) (m m' : gmap ptr device) : Prop :=
  forall p d',
    m' !! p = Some d' ->
    (exists d, m !! p = Some d /\ ep_detect d' = ep_detect d /\
               (bbu d' = bbu d \/ (writes = true /\ 0 <= bbu d' < 2 ^ 40))) \/
    (m !! p = None /\ bbu d' = 0).

(** Of the entry points only the completion handler writes the counter. *)
Definition writes_counter (o : op) : bool :=
  match o with
  | Callback _ _ _ _ => true
  | _ => false
  end.

(** What an entry point may arm: receives for devices whose flag is set,
    or for a block that it has just allocated. *)
Definition arms_only_streaming (m : gmap ptr device) (t : list event) : Prop :=
  forall pipe len p,
    In (queue_interrupt pipe len p) t ->
    (exists d, m !! p = Some d /\ ep_detect d <> 0) \/ m !! p = None.

Definition value_300 : list Z := [0x43; 0; 0; 0; 1; 0x2c; 0x0d; 0xff].

(** Entry points that run while a removal of device 1 is under way. *)
Definition racing_ops : list op :=
  [Callback 1 0 value_300 8;
   Write (mkDevOpen 1 1 (replicate 16 0) 0) 0 [49] 1;
   Callback 1 0 [0x21; 0x53; 0; 0; 0; 0; 0; 0] 8;
   Read (mkDevOpen 1 0 (replicate 16 0) 0) 0 16].

(** A configuration whose only endpoint is a bulk endpoint. *)
Definition bulk_only : usb_configuration_info :=
  mkConfigurationInfo
    [mkInterfaceList
       (Some (mkInterfaceInfo [mkEndpointInfo (mkEndpointDescriptor 0x81 2 64) 77]))].

(** A configuration with the interrupt-IN endpoint of the sensor. *)
Definition sensor_conf : usb_configuration_info :=
  mkConfigurationInfo
    [mkInterfaceList
       (Some (mkInterfaceInfo [mkEndpointInfo (mkEndpointDescriptor 0x81 3 8) 77]))].

(** The driver after the sensor was plugged in and reported the count 300. *)
Definition s_300 : driver :=
  mkDriver 3 1 [2%positive] {[ 2%positive := mkDevice 9 0 1 0x81 77 12 300 1 ]}.

(** ** The registry over the life of the driver *)

(** What [gDeviceList] and [gDeviceCount] are kept to: the chain visits
    every live device exactly once and nothing else, and the count is its
    length, as a [uint32]. *)
Definition registry_ok (s : driver) : Prop :=
  NoDup (gDeviceList s) /\
  (forall p, p ∈ gDeviceList s <-> is_Some (devices s !! p)) /\
  gDeviceCount s = u32 (Z.of_nat (length (gDeviceList s))).
(** The interfaces in front of the one that [device_added] settles on:
    none of their endpoints qualifies. *)
Definition no_qualifying_interface (A D : Z) (ifs : list usb_interface_list)
    : Prop :=
  Forall (fun entry =>
            match active entry with
            | Some intf =>
                Forall (fun ep => ~ qualifying A D (descr ep)) (endpoint intf)
            | None => True
            end) ifs.

(** A configuration with an inactive interface, an interface with a bulk
    endpoint only, and an interface whose second endpoint is the
    interrupt-IN endpoint of 8 bytes. *)
Definition third_interface_conf : usb_configuration_info :=
  mkConfigurationInfo
    [mkInterfaceList None;
     mkInterfaceList
       (Some (mkInterfaceInfo [mkEndpointInfo (mkEndpointDescriptor 0x02 2 64) 70]));
     mkInterfaceList
       (Some (mkInterfaceInfo
                [mkEndpointInfo (mkEndpointDescriptor 0x01 3 8) 71;
                 mkEndpointInfo (mkEndpointDescriptor 0x82 3 8) 72;
                 mkEndpointInfo (mkEndpointDescriptor 0x83 3 8) 73]))].

(** A registry of three devices. *)
Definition s_three : driver :=
  mkDriver 3 3 [4%positive; 1%positive; 2%positive]
    {[ 1%positive := d0;
       2%positive := mkDevice 9 0 1 0x81 77 12 300 1;
       4%positive := mkDevice 11 0 0 0 0 13 0 1 ]}.

(** * Verification *)

(** ** Running the monad *)

Lemma bind_run {A B} (m : M A) (k : A -> M B) (s : driver) :
  (m ≫= k) s =
  match m s with
  | None => None
  | Some (a, s1, t1) =>
      match k a s1 with
      | None => None
      | Some (b, s2, t2) => Some (b, s2, t1 ++ t2)
      end
  end.
Proof. reflexivity. Qed.

Lemma load_live (s : driver) (dev : ptr) (d : device) :
  devices s !! dev = Some d -> load dev s = Some (d, s, []).
Proof. intros H. unfold load. now rewrite H. Qed.

Lemma update_live (s : driver) (dev : ptr) (d : device) (f : device -> device) :
  devices s !! dev = Some d ->
  update dev f s = Some (tt, set_devices (<[dev := f d]> (devices s)) s, []).
Proof.
  intros H. unfold update. rewrite bind_run, (load_live s dev d H).
  unfold store. now rewrite H.
Qed.

Lemma devices_set_devices (m : gmap ptr device) (s : driver) :
  devices (set_devices m s) = m.
Proof. reflexivity. Qed.

Lemma set_devices_twice (m1 m2 : gmap ptr device) (s : driver) :
  set_devices m2 (set_devices m1 s) = set_devices m2 s.
Proof. reflexivity. Qed.

Lemma set_devices_same (s : driver) : set_devices (devices s) s = s.
Proof. now destruct s. Qed.

Lemma lookup_set_devices_insert (s : driver) (dev : ptr) (d : device) :
  devices (set_devices (<[dev := d]> (devices s)) s) !! dev = Some d.
Proof. apply lookup_insert_eq. Qed.

Ltac run_step :=
  first
    [ rewrite bind_run
    | erewrite load_live by (first [eassumption | apply lookup_set_devices_insert])
    | erewrite update_live by (first [eassumption | apply lookup_set_devices_insert])
    | progress unfold call, mret, M_ret
    | progress cbn beta iota ].
Ltac run := repeat run_step.

(** ** The command codec *)

Lemma wf_packet_inv (req : list Z) :
  wf_packet req ->
  exists b0 b1 b2 b3 b4 b5 b6 b7,
    req = [b0; b1; b2; b3; b4; b5; b6; b7] /\
    is_uint8 b0 /\ is_uint8 b1 /\ is_uint8 b2 /\ is_uint8 b3 /\
    is_uint8 b4 /\ is_uint8 b5 /\ is_uint8 b6 /\ is_uint8 b7.
Proof.
  intros [Hlen Hall].
  do 8 (destruct req as [|? req]; [discriminate Hlen|]).
  destruct req; [|discriminate Hlen].
  repeat match goal with
         | H : Forall _ (_ :: _) |- _ => apply Forall_cons in H; destruct H
         end.
  eauto 20.
Qed.

Lemma bbu_round (acc b : Z) :
  0 <= acc < 2 ^ 56 -> is_uint8 b ->
  u64 (u64 (Z.shiftl acc 8) + b) = acc * 256 + b.
Proof.
  unfold is_uint8, u64. intros Hacc Hb.
  rewrite Z.shiftl_mul_pow2 by lia.
  change (2 ^ 8) with 256.
  rewrite (Z.mod_small (acc * 256)) by lia.
  apply Z.mod_small. lia.
Qed.

Lemma bbu_loop_big_endian (req : list Z) :
  wf_packet req ->
  bbu_loop req 1 5 0 = big_endian (take 5 (drop 1 req)) /\
  0 <= bbu_loop req 1 5 0 < 2 ^ 40.
Proof.
  intros Hwf. destruct (wf_packet_inv req Hwf)
    as (b0 & b1 & b2 & b3 & b4 & b5 & b6 & b7 & -> & H0 & H1 & H2 & H3 & H4 & H5 & _).
  unfold is_uint8 in *.
  cbn [bbu_loop byte_at nth take drop big_endian fold_left].
  repeat match goal with
         | |- context [u64 (u64 (Z.shiftl ?a 8) + ?b)] =>
             rewrite (bbu_round a b) by (unfold is_uint8; lia)
         end.
  split; lia.
Qed.

(** ** The completion handler, case by case *)

Lemma yurex_callback_update (s : driver) (dev : ptr) (d : device)
    (status actualLength : Z) (req : list Z) :
  devices s !! dev = Some d ->
  CMD_VALUE = byte_at req 0 \/ CMD_READ = byte_at req 0 ->
  yurex_callback dev status req actualLength s =
  Some (tt,
        set_devices (<[dev := set_bbu (bbu_loop req 1 5 0) d]> (devices s)) s,
        [acquire_sem (sem d); release_sem (sem d)] ++
        (if decide (CMD_EOF <> byte_at req 6)
         then [dprintf "yurex: invalid bbu delta EOF"] else []) ++
        rearm dev d).
Proof.
  intros Hd Hop. unfold yurex_callback.
  rewrite decide_True by exact Hop.
  run.
  rewrite !devices_set_devices, set_devices_twice, insert_insert_eq.
  change (set_bbu (bbu_loop req 1 5 (bbu (set_bbu 0 d))) (set_bbu 0 d))
    with (set_bbu (bbu_loop req 1 5 0) d).
  unfold rearm, yurex_interrupt.
  destruct (decide (CMD_EOF <> byte_at req 6)); run;
    change (ep_detect (set_bbu (bbu_loop req 1 5 0) d)) with (ep_detect d);
    destruct (decide (0 <> ep_detect d)); run; reflexivity.
Qed.

Lemma yurex_callback_ack (s : driver) (dev : ptr) (d : device)
    (status actualLength : Z) (req : list Z) :
  devices s !! dev = Some d ->
  ~ (CMD_VALUE = byte_at req 0 \/ CMD_READ = byte_at req 0) ->
  CMD_ACK = byte_at req 0 /\ CMD_WRITE = byte_at req 1 ->
  yurex_callback dev status req actualLength s =
  Some (tt, s,
        send_request (udev d) (Z.shiftl 2 8) (ifno d) 8 read_request :: rearm dev d).
Proof.
  intros Hd Hno Hack. unfold yurex_callback.
  rewrite decide_False by exact Hno.
  rewrite decide_True by exact Hack.
  unfold rearm, yurex_read_bbu, yurex_interrupt. run.
  destruct (decide (0 <> ep_detect d)); run; reflexivity.
Qed.

Lemma yurex_callback_other (s : driver) (dev : ptr) (d : device)
    (status actualLength : Z) (req : list Z) :
  devices s !! dev = Some d ->
  ~ (CMD_VALUE = byte_at req 0 \/ CMD_READ = byte_at req 0) ->
  ~ (CMD_ACK = byte_at req 0 /\ CMD_WRITE = byte_at req 1) ->
  yurex_callback dev status req actualLength s = Some (tt, s, rearm dev d).
Proof.
  intros Hd Hno Hnack. unfold yurex_callback.
  rewrite !decide_False by assumption.
  unfold rearm, yurex_interrupt. run.
  destruct (decide (0 <> ep_detect d)); run; reflexivity.
Qed.

(** ** C1: the completion handler applies VALUE and READ packets *)

(** C1. For every 8-byte packet whose byte 0 is the VALUE or the READ
    opcode, the completion handler stores in the device counter exactly
    the big-endian value of bytes 1..5 and changes nothing else in the
    driver; no condition is put on byte 6, and when byte 6 is not the EOF
    marker the anomaly is logged. *)
Theorem callback_sets_counter_big_endian (s : driver) (dev : ptr) (d : device)
    (status actualLength : Z) (req : list Z) :
  devices s !! dev = Some d ->
  wf_packet req ->
  byte_at req 0 = CMD_VALUE \/ byte_at req 0 = CMD_READ ->
  exists t,
    yurex_callback dev status req actualLength s =
      Some (tt,
            set_devices
              (<[dev := set_bbu (big_endian (take 5 (drop 1 req))) d]> (devices s)) s,
            t) /\
    (byte_at req 6 <> CMD_EOF -> In (dprintf "yurex: invalid bbu delta EOF") t).
Proof.
  intros Hd Hwf Hop.
  destruct (bbu_loop_big_endian req Hwf) as [Hbe _].
  rewrite (yurex_callback_update s dev d status actualLength req Hd)
    by (destruct Hop as [<-| <-]; auto).
  rewrite Hbe. eexists. split; [reflexivity|].
  intros Heof. rewrite decide_True by congruence.
  cbn. auto.
Qed.

Lemma callback_sets_counter_big_endian_witness :
  exists t,
    yurex_callback 1 0 [0x43; 0; 0; 0; 1; 0x2c; 0; 0xff] 8 s0 =
      Some (tt, set_devices (<[1%positive := set_bbu 300 d0]> (devices s0)) s0, t) /\
    (byte_at [0x43; 0; 0; 0; 1; 0x2c; 0; 0xff] 6 <> CMD_EOF ->
     In (dprintf "yurex: invalid bbu delta EOF") t).
Proof.
  apply (callback_sets_counter_big_endian s0 1 d0 0 8 [0x43; 0; 0; 0; 1; 0x2c; 0; 0xff]).
  - reflexivity.
  - split; [reflexivity | repeat constructor; discriminate].
  - left; reflexivity.
Defined.

(** ** C8: an acknowledged WRITE triggers a READ request *)

(** C8. For every packet with byte 0 = ACK and byte 1 = WRITE the
    completion handler sends the READ command to the device and leaves
    the driver state, hence the counter and the mode, unchanged. *)
Theorem callback_ack_of_write_requests_read (s : driver) (dev : ptr)
    (d : device) (status actualLength : Z) (req : list Z) :
  devices s !! dev = Some d ->
  byte_at req 0 = CMD_ACK ->
  byte_at req 1 = CMD_WRITE ->
  yurex_callback dev status req actualLength s =
    Some (tt, s,
          send_request (udev d) (Z.shiftl 2 8) (ifno d) 8 read_request
            :: rearm dev d).
Proof.
  intros Hd H0 H1. apply yurex_callback_ack; auto.
  rewrite H0. intros [H | H]; discriminate H.
Qed.

Lemma callback_ack_of_write_requests_read_witness :
  yurex_callback 1 0 [0x21; 0x53; 0; 0; 0; 0; 0; 0] 8 s0 =
    Some (tt, s0,
          send_request (udev d0) (Z.shiftl 2 8) (ifno d0) 8 read_request
            :: rearm 1 d0).
Proof.
  apply (callback_ack_of_write_requests_read s0 1 d0 0 8 [0x21; 0x53; 0; 0; 0; 0; 0; 0]);
    reflexivity.
Defined.

(** ** C6: the WRITE command on the wire *)

Lemma byte_of_shift (v n : Z) :
  0 <= n -> Z.land (Z.shiftr v n) 0xff = v / 2 ^ n mod 256.
Proof.
  intros Hn. rewrite Z.shiftr_div_pow2 by exact Hn.
  change 0xff with (Z.ones 8). rewrite Z.land_ones by lia. reflexivity.
Qed.

Lemma big_endian_write_request (v : Z) :
  0 <= v < 2 ^ 40 -> big_endian (take 5 (drop 1 (write_request v))) = v.
Proof.
  intros Hv. cbn [write_request take drop big_endian fold_left].
  change (2 ^ 40) with 1099511627776 in Hv.
  change (2 ^ 32) with 4294967296. change (2 ^ 24) with 16777216.
  change (2 ^ 16) with 65536. change (2 ^ 8) with 256.
  Z.div_mod_to_equations. lia.
Qed.

(** C6. For every 40-bit value [v] the WRITE command sent is the 8-byte
    packet with byte 0 = 0x53, bytes 1..5 the big-endian digits of [v],
    byte 6 = 0x0D and byte 7 the padding 0xFF; the packet is a function
    of [v] alone. *)
Theorem write_request_encoding (s : driver) (dev : ptr) (d : device) (v : Z) :
  devices s !! dev = Some d ->
  0 <= v < 2 ^ 40 ->
  yurex_write_bbu dev v s =
    Some (tt, s, [send_request (udev d) (Z.shiftl 2 8) (ifno d) 8 (write_request v)]) /\
  length (write_request v) = 8%nat /\
  byte_at (write_request v) 0 = 0x53 /\
  big_endian (take 5 (drop 1 (write_request v))) = v /\
  Forall is_uint8 (take 5 (drop 1 (write_request v))) /\
  byte_at (write_request v) 6 = 0x0d /\
  byte_at (write_request v) 7 = 0xff.
Proof.
  intros Hd Hv. split; [|repeat split].
  - unfold yurex_write_bbu. run.
    rewrite !byte_of_shift by lia.
    unfold write_request. rewrite Z.pow_0_r, Z.div_1_r. reflexivity.
  - apply big_endian_write_request, Hv.
  - cbn [write_request take drop].
    repeat constructor; unfold is_uint8; apply Z.mod_pos_bound; lia.
Qed.

Lemma write_request_encoding_witness :
  yurex_write_bbu 1 12345 s0 =
    Some (tt, s0, [send_request 7 512 0 8 [0x53; 0; 0; 0; 0x30; 0x39; 0x0d; 0xff]]) /\
  big_endian [0; 0; 0; 0x30; 0x39] = 12345.
Proof.
  pose proof (write_request_encoding s0 1 d0 12345 eq_refl ltac:(lia)) as H.
  split; [exact (proj1 H) | exact (proj1 (proj2 (proj2 (proj2 H))))].
Defined.

(** ** The session layer *)

Lemma memcpy_from_inside (buf : list Z) (position len : Z) (s : driver) :
  0 <= position -> 0 <= len ->
  position + len <= Z.of_nat (length buf) ->
  memcpy_from buf position len s =
    Some (take (Z.to_nat len) (drop (Z.to_nat position) buf), s, []).
Proof.
  intros Hp Hl Hin. unfold memcpy_from.
  destruct (decide (len = 0)) as [->|Hne]; [reflexivity|].
  rewrite decide_True by lia. reflexivity.
Qed.

(** A read away from offset 0 copies from what is staged. *)
Lemma device_read_copy (cookie : dev_open) (position length : Z) (s : driver) :
  0 <> position ->
  device_read cookie position length s =
    match memcpy_from (buf cookie) position
            (if decide (size_t (buf_len cookie - position) > length)
             then length else size_t (buf_len cookie - position)) s with
    | Some (data, s', t) =>
        Some (B_OK, cookie, data,
              if decide (size_t (buf_len cookie - position) > length)
              then length else size_t (buf_len cookie - position), s', t)
    | None => None
    end.
Proof.
  intros Hp. unfold device_read. rewrite decide_False by exact Hp. run.
  destruct (memcpy_from _ _ _ s) as [[[data s'] t]|]; [|reflexivity].
  cbn [app]. now rewrite app_nil_r.
Qed.

(** Inside the staged text the read is the one the interface promises:
    [min length (buf_len - position)] bytes from [position] on. *)
Lemma device_read_within (cookie : dev_open) (position length : Z) (s : driver) :
  List.length (buf cookie) = 16%nat ->
  0 < position <= buf_len cookie ->
  buf_len cookie <= 16 ->
  0 <= length ->
  device_read cookie position length s =
    Some (B_OK, cookie,
          take (Z.to_nat (Z.min length (buf_len cookie - position)))
               (drop (Z.to_nat position) (buf cookie)),
          Z.min length (buf_len cookie - position), s, []).
Proof.
  intros Hbuf Hp HL Hlen.
  rewrite device_read_copy by lia.
  assert (Hsz : size_t (buf_len cookie - position) = buf_len cookie - position)
    by (unfold size_t; apply Z.mod_small; lia).
  rewrite Hsz.
  destruct (decide (buf_len cookie - position > length)).
  - rewrite memcpy_from_inside by lia. now rewrite Z.min_l by lia.
  - rewrite memcpy_from_inside by lia. now rewrite Z.min_r by lia.
Qed.

(** C4. Past the staged text the subtraction [buf_len - position] wraps
    around in [size_t]: the read then copies [length] bytes that lie behind
    the text and reports [length] bytes, not end of stream. *)
Theorem device_read_past_staged_text (cookie : dev_open) (position length : Z)
    (s : driver) :
  List.length (buf cookie) = 16%nat ->
  0 <= buf_len cookie < position ->
  0 < length ->
  position + length <= 16 ->
  device_read cookie position length s =
    Some (B_OK, cookie,
          take (Z.to_nat length) (drop (Z.to_nat position) (buf cookie)),
          length, s, []).
Proof.
  intros Hbuf Hp Hlen Hin.
  rewrite device_read_copy by lia.
  assert (Hsz : size_t (buf_len cookie - position)
                = 2 ^ 64 + (buf_len cookie - position)).
  { unfold size_t. symmetry. apply (Z.mod_unique _ _ (-1)); lia. }
  rewrite Hsz, decide_True by lia.
  now rewrite memcpy_from_inside by lia.
Qed.

Lemma device_read_past_staged_text_witness :
  device_read (mkDevOpen 1 1 [49; 10; 0; 0; 0; 0; 0; 0; 0; 0; 0; 0; 0; 0; 0; 0] 2)
              3 8 s0 =
    Some (B_OK,
          mkDevOpen 1 1 [49; 10; 0; 0; 0; 0; 0; 0; 0; 0; 0; 0; 0; 0; 0; 0] 2,
          [0; 0; 0; 0; 0; 0; 0; 0], 8, s0, []).
Proof.
  apply (device_read_past_staged_text
           (mkDevOpen 1 1 [49; 10; 0; 0; 0; 0; 0; 0; 0; 0; 0; 0; 0; 0; 0; 0] 2)
           3 8 s0); cbn; [reflexivity | lia | lia | lia].
Defined.

(** A read at offset 0 stages the text and copies its front. *)
Lemma device_read_stage (cookie : dev_open) (length : Z) (s : driver)
    (d : device) :
  devices s !! dev cookie = Some d ->
  List.length (buf cookie) = 16%nat ->
  (List.length (staged_text cookie d) <= 15)%nat ->
  0 <= length ->
  let text := staged_text cookie d in
  let n := Z.of_nat (List.length text) in
  device_read cookie 0 length s =
    Some (B_OK,
          mkDevOpen (dev cookie) (type cookie)
                    (text ++ 0 :: drop (S (List.length text)) (buf cookie)) n,
          take (Z.to_nat (Z.min length n)) text,
          Z.min length n, s,
          [acquire_sem (sem d); release_sem (sem d)]).
Proof.
  intros Hd Hbuf Htext Hlen text n.
  change (List.length text <= 15)%nat in Htext.
  assert (Hsnp : snprintf (buf cookie) 16 text
                 = (text ++ 0 :: drop (S (List.length text)) (buf cookie), n)).
  { unfold snprintf. rewrite take_ge by (cbn; lia).
    rewrite length_app, Nat.add_1_r. cbn [List.length].
    now rewrite <- app_assoc. }
  assert (Hn : size_t n = n) by (unfold size_t; apply Z.mod_small; lia).
  unfold device_read. rewrite decide_True by reflexivity.
  run.
  replace (if decide (YUREX_DEVICE_TYPE_BBU = type cookie)
           then snprintf (buf cookie) 16 (fmt_ld (s64 (bbu d)) ++ [10])
           else snprintf (buf cookie) 16 (fmt_ld (anime d) ++ [10]))
    with (snprintf (buf cookie) 16 text)
    by (unfold text, staged_text; now destruct (decide _)).
  rewrite Hsnp. run. cbn [buf buf_len].
  rewrite Hn, Z.sub_0_r, Hn.
  assert (Hcopy : forall k, 0 <= k <= n ->
            memcpy_from (text ++ 0 :: drop (S (List.length text)) (buf cookie)) 0 k s
            = Some (take (Z.to_nat k) text, s, [])).
  { intros k Hk. rewrite memcpy_from_inside.
    - change (Z.to_nat 0) with 0%nat. rewrite drop_0.
      now rewrite take_app_le by lia.
    - lia.
    - lia.
    - rewrite length_app. cbn [List.length]. lia. }
  destruct (decide (n > length)).
  - rewrite Hcopy by lia. rewrite Z.min_l by lia. reflexivity.
  - rewrite Hcopy by lia. rewrite Z.min_r by lia. reflexivity.
Qed.

(** ** C9: the animation endpoint *)

Lemma device_write_anime (s : driver) (cookie : dev_open) (d : device)
    (position length c : Z) (rest : list Z) :
  YUREX_DEVICE_TYPE_ANIME = type cookie ->
  devices s !! dev cookie = Some d ->
  0 <> length ->
  device_write cookie position (c :: rest) length s =
    Some (B_OK,
          set_devices
            (<[dev cookie := set_anime (if decide (48 = c) then 0 else 1) d]>
               (devices s)) s,
          [acquire_sem (sem d); release_sem (sem d);
           send_request (udev d) (Z.shiftl 2 8) (ifno d) 8
             (mode_request (if decide (48 = c) then 0xff else 0x00))]).
Proof.
  intros Hty Hd Hlen. unfold device_write.
  rewrite decide_False by exact Hlen.
  rewrite decide_True by exact Hty.
  unfold yurex_set_mode.
  destruct (decide (48 = c)); run; reflexivity.
Qed.

(** C9. On an Animation handle a write whose first byte is the character
    0 clears the device mode and sends the MODE command with argument
    0xFF, a write with any other first byte sets the mode to 1 and sends
    MODE with argument 0x00; a following read at offset 0 stages the text
    0 or 1 followed by a newline and returns it (its first [n] bytes for a
    caller buffer of [n] bytes). *)
Theorem animation_write_then_read (s : driver) (cookie : dev_open)
    (d : device) (position length c : Z) (rest : list Z) (n : Z) :
  type cookie = YUREX_DEVICE_TYPE_ANIME ->
  devices s !! dev cookie = Some d ->
  List.length (buf cookie) = 16%nat ->
  0 <> length ->
  0 <= n ->
  let mode := if decide (48 = c) then 0 else 1 in
  let arg := if decide (48 = c) then 0xff else 0x00 in
  exists s1 cookie1,
    device_write cookie position (c :: rest) length s =
      Some (B_OK, s1,
            [acquire_sem (sem d); release_sem (sem d);
             send_request (udev d) (Z.shiftl 2 8) (ifno d) 8 (mode_request arg)]) /\
    devices s1 !! dev cookie = Some (set_anime mode d) /\
    device_read cookie 0 n s1 =
      Some (B_OK, cookie1, take (Z.to_nat n) [48 + mode; 10], Z.min n 2, s1,
            [acquire_sem (sem d); release_sem (sem d)]) /\
    take 3 (buf cookie1) = [48 + mode; 10; 0] /\
    buf_len cookie1 = 2.
Proof.
  intros Hty Hd Hbuf Hlen Hn mode arg.
  exists (set_devices (<[dev cookie := set_anime mode d]> (devices s)) s).
  exists (mkDevOpen (dev cookie) (type cookie)
                    ([48 + mode; 10] ++ 0 :: drop 3 (buf cookie)) 2).
  rewrite (device_write_anime s cookie d position length c rest) by auto.
  split; [reflexivity|].
  split; [apply lookup_set_devices_insert|].
  assert (Htext : staged_text cookie (set_anime mode d) = [48 + mode; 10]).
  { unfold staged_text. rewrite Hty, decide_False by discriminate.
    unfold mode. now destruct (decide (48 = c)). }
  rewrite (device_read_stage cookie n _ (set_anime mode d));
    [ | apply lookup_set_devices_insert | exact Hbuf | rewrite Htext; cbn; lia | exact Hn ].
  rewrite Htext.
  split; [|split; reflexivity].
  replace (take (Z.to_nat n) [48 + mode; 10])
    with (take (Z.to_nat (Z.min n 2)) [48 + mode; 10]); [reflexivity|].
  destruct (Z.le_gt_cases 2 n) as [Hge | Hlt].
  - rewrite Z.min_r by lia.
    now rewrite (take_ge [48 + mode; 10] (Z.to_nat n)) by (cbn; lia).
  - now rewrite Z.min_l by lia.
Qed.

Lemma animation_write_then_read_witness :
  exists s1 cookie1,
    device_write (mkDevOpen 1 1 (replicate 16 0) 0) 0 [48] 1 s0 =
      Some (B_OK, s1,
            [acquire_sem 11; release_sem 11;
             send_request 7 512 0 8 (mode_request 0xff)]) /\
    devices s1 !! 1%positive = Some (set_anime 0 d0) /\
    device_read (mkDevOpen 1 1 (replicate 16 0) 0) 0 16 s1 =
      Some (B_OK, cookie1, [48; 10], 2, s1, [acquire_sem 11; release_sem 11]) /\
    take 3 (buf cookie1) = [48; 10; 0] /\
    buf_len cookie1 = 2.
Proof.
  apply (animation_write_then_read s0 (mkDevOpen 1 1 (replicate 16 0) 0) d0
           0 1 48 [] 16); [reflexivity | reflexivity | reflexivity | lia | lia].
Defined.

(** ** C7: writes to the counter endpoint *)

Lemma is_digit_spec (c : Z) : is_digit c = true <-> 48 <= c /\ c <= 57.
Proof. unfold is_digit. rewrite andb_true_iff, !Z.leb_le. tauto. Qed.

(** The digit loop computes in [uint64] what [decimal_value] computes in
    the integers. *)
Lemma scan_digits_run (digits : list Z) (c : Z) (rest : list Z) (acc acc' : Z) :
  Forall (fun x => is_digit x = true) digits ->
  is_digit c = false ->
  acc = u64 acc' ->
  scan_digits (digits ++ c :: rest) acc =
    Some (u64 (fold_left (fun value x => value * 10 + (x - 48)) digits acc')).
Proof.
  intros Hd Hc. revert acc acc'.
  induction Hd as [|x digits Hx _ IH]; intros acc acc' Hacc.
  - cbn. rewrite decide_False; [now subst|].
    intros H. apply is_digit_spec in H. congruence.
  - cbn [app scan_digits fold_left].
    rewrite decide_True by now apply is_digit_spec.
    apply IH. subst acc. unfold u64.
    rewrite Zplus_mod_idemp_l, <- Zplus_mod_idemp_l, Zmult_mod_idemp_l.
    now rewrite Zplus_mod_idemp_l.
Qed.

Lemma leading_digits_split (data : list Z) :
  Exists (fun x => is_digit x = false) data ->
  exists c rest,
    data = leading_digits data ++ c :: rest /\ is_digit c = false.
Proof.
  induction data as [|x data IH]; intros Hex.
  - inversion Hex.
  - cbn [leading_digits]. destruct (is_digit x) eqn:Hx.
    + destruct IH as (c & rest & Heq & Hc).
      { inversion Hex; subst; [congruence | assumption]. }
      exists c, rest. split; [|exact Hc]. cbn. now rewrite <- Heq.
    + exists x, data. now split.
Qed.

Lemma leading_digits_all (data : list Z) :
  Forall (fun x => is_digit x = true) (leading_digits data).
Proof.
  induction data as [|x data IH]; cbn [leading_digits]; [constructor|].
  destruct (is_digit x) eqn:Hx; [now constructor | constructor].
Qed.

Lemma decimal_fold_nonneg (digits : list Z) (acc : Z) :
  Forall (fun x => is_digit x = true) digits ->
  0 <= acc ->
  0 <= fold_left (fun value x => value * 10 + (x - 48)) digits acc.
Proof.
  intros Hd. revert acc.
  induction Hd as [|x digits Hx _ IH]; intros acc Hacc; cbn [fold_left].
  - exact Hacc.
  - apply IH. apply is_digit_spec in Hx. lia.
Qed.

Lemma write_packet_any (s : driver) (dev : ptr) (d : device) (v : Z) :
  devices s !! dev = Some d ->
  yurex_write_bbu dev v s =
    Some (tt, s, [send_request (udev d) (Z.shiftl 2 8) (ifno d) 8 (write_request v)]).
Proof.
  intros Hd. unfold yurex_write_bbu. run.
  rewrite !byte_of_shift by lia.
  unfold write_request. rewrite Z.pow_0_r, Z.div_1_r. reflexivity.
Qed.

(** C7 (amended). For every write to the Counter endpoint of [length > 0]
    bytes whose data contains a byte that is not a digit, the value handed
    to [yurex_write_bbu] is the decimal number denoted by the maximal
    leading run of ASCII digits of the data, reduced modulo 2^64 (the
    number itself when it is below 2^64), and the WRITE command for that
    value is what is sent; data with no leading digit gives the value 0;
    a write of length 0 does nothing and returns [B_OK]. *)
Theorem counter_write_parses_leading_digits (s : driver) (cookie : dev_open)
    (d : device) (position : Z) (buffer : list Z) (length : Z) :
  type cookie = YUREX_DEVICE_TYPE_BBU ->
  devices s !! dev cookie = Some d ->
  0 < length ->
  let data := take (Z.to_nat length) buffer in
  let value := u64 (decimal_value (leading_digits data)) in
  Exists (fun x => is_digit x = false) data ->
  scan_digits buffer 0 = Some value /\
  device_write cookie position buffer length s =
    Some (B_OK, s,
          [send_request (udev d) (Z.shiftl 2 8) (ifno d) 8 (write_request value)]) /\
  (decimal_value (leading_digits data) < 2 ^ 64 ->
   value = decimal_value (leading_digits data)) /\
  (leading_digits data = [] -> value = 0) /\
  device_write cookie position buffer 0 s = Some (B_OK, s, []).
Proof.
  intros Hty Hd Hlen data value Hex.
  destruct (leading_digits_split data Hex) as (c & rest & Hsplit & Hc).
  assert (Hscan : scan_digits buffer 0 = Some value).
  { rewrite <- (take_drop (Z.to_nat length) buffer). fold data.
    rewrite Hsplit, <- app_assoc. cbn [app].
    apply scan_digits_run; [apply leading_digits_all | exact Hc | reflexivity]. }
  split; [exact Hscan|]. split; [|split; [|split]].
  - unfold device_write. rewrite decide_False by lia.
    rewrite decide_False by (rewrite Hty; discriminate).
    rewrite Hscan. run. rewrite (write_packet_any _ _ d) by exact Hd.
    run. reflexivity.
  - intros Hlt. unfold value, u64. apply Z.mod_small. split; [|exact Hlt].
    apply decimal_fold_nonneg; [apply leading_digits_all | lia].
  - intros Hnil. unfold value. now rewrite Hnil.
  - unfold device_write. now rewrite decide_True by reflexivity.
Qed.

Lemma counter_write_parses_leading_digits_witness :
  scan_digits [49; 50; 51; 52; 53; 101; 120; 116; 114; 97] 0 = Some 12345 /\
  device_write (mkDevOpen 1 0 (replicate 16 0) 0) 0
               [49; 50; 51; 52; 53; 101; 120; 116; 114; 97] 10 s0 =
    Some (B_OK, s0, [send_request 7 512 0 8 (write_request 12345)]).
Proof.
  pose proof (counter_write_parses_leading_digits s0
                (mkDevOpen 1 0 (replicate 16 0) 0) d0 0
                [49; 50; 51; 52; 53; 101; 120; 116; 114; 97] 10
                eq_refl eq_refl ltac:(lia)
                ltac:(do 5 apply Exists_cons_tl; apply Exists_cons_hd; reflexivity))
    as H.
  split; [exact (proj1 H) | exact (proj1 (proj2 H))].
Defined.

(** C7, as it is worded, fails on a run of digits that denotes 2^64: the
    value handed to [yurex_write_bbu] is 0, not the number denoted. *)
Lemma counter_write_value_wraps :
  Exists (fun x => is_digit x = false) text_2_64 /\
  decimal_value (leading_digits text_2_64) = 2 ^ 64 /\
  scan_digits text_2_64 0 = Some 0 /\
  scan_digits text_2_64 0 <> Some (decimal_value (leading_digits text_2_64)) /\
  device_write (mkDevOpen 1 0 (replicate 16 0) 0) 0 text_2_64 21 s0 =
    Some (B_OK, s0, [send_request 7 512 0 8 (write_request 0)]).
Proof.
  split; [do 20 apply Exists_cons_tl; apply Exists_cons_hd; reflexivity|].
  split; [reflexivity|]. split; [reflexivity|].
  split; [vm_compute; discriminate | reflexivity].
Qed.

(** The digit loop is not bounded by [length]: a write of the two bytes
    12 from memory that goes on with the digit 3 sends the value 123. *)
Example counter_write_scans_past_length :
  device_write (mkDevOpen 1 0 (replicate 16 0) 0) 0 [49; 50; 51; 10] 2 s0 =
    Some (B_OK, s0, [send_request 7 512 0 8 (write_request 123)]) /\
  decimal_value (leading_digits (take 2 [49; 50; 51; 10])) = 12.
Proof. split; reflexivity. Qed.

(** ** The registry chain *)

Lemma unlink_scan_delete_first (dev node : ptr) (rest : list ptr) :
  unlink_scan dev (node :: rest) = node :: delete_first dev rest.
Proof.
  revert node. induction rest as [|next after IH]; intros node.
  - reflexivity.
  - cbn [unlink_scan delete_first].
    destruct (decide (next = dev)); [reflexivity|].
    f_equal. apply IH.
Qed.

Lemma unlink_list_delete_first (dev : ptr) (chain : list ptr) :
  unlink_list dev chain = delete_first dev chain.
Proof.
  destruct chain as [|head rest]; [reflexivity|].
  cbn [unlink_list delete_first].
  destruct (decide (head = dev)); [reflexivity|].
  apply unlink_scan_delete_first.
Qed.

Lemma elem_of_delete_first (dev p : ptr) (chain : list ptr) :
  p ∈ delete_first dev chain -> p ∈ chain.
Proof.
  induction chain as [|node rest IH]; cbn [delete_first]; [auto|].
  destruct (decide (node = dev)).
  - intros H. rewrite elem_of_cons. now right.
  - rewrite !elem_of_cons. intros [->|H]; auto.
Qed.

Lemma elem_of_delete_first_ne (dev p : ptr) (chain : list ptr) :
  p <> dev -> p ∈ chain -> p ∈ delete_first dev chain.
Proof.
  intros Hne.
  induction chain as [|node rest IH]; cbn [delete_first]; [auto|].
  rewrite elem_of_cons.
  destruct (decide (node = dev)) as [->|Hn].
  - intros [->|H]; [congruence | exact H].
  - rewrite elem_of_cons. intros [->|H]; auto.
Qed.

Lemma NoDup_delete_first (dev : ptr) (chain : list ptr) :
  NoDup chain -> NoDup (delete_first dev chain) /\ dev ∉ delete_first dev chain.
Proof.
  induction 1 as [|node rest Hnotin Hnd IH]; cbn [delete_first].
  - split; [constructor | apply not_elem_of_nil].
  - destruct (decide (node = dev)) as [->|Hn].
    + split; assumption.
    + destruct IH as [IH1 IH2]. split.
      * constructor; [|exact IH1].
        intros H. apply Hnotin. eapply elem_of_delete_first, H.
      * rewrite elem_of_cons. intros [->|H]; [congruence | auto].
Qed.

Lemma length_delete_first (dev : ptr) (chain : list ptr) :
  dev ∈ chain -> S (length (delete_first dev chain)) = length chain.
Proof.
  induction chain as [|node rest IH]; cbn [delete_first].
  - intros H. now apply elem_of_nil in H.
  - destruct (decide (node = dev)) as [->|Hn]; [reflexivity|].
    rewrite elem_of_cons. intros [->|H]; [congruence|].
    cbn [length]. f_equal. now apply IH.
Qed.

(** ** C3: the order of the steps of a removal *)

Lemma removal_stage_run (s : driver) (dev : ptr) (d : device) (k : nat) :
  devices s !! dev = Some d ->
  let s3 := mkDriver (gLock s) (u32 (gDeviceCount s + -1))
                     (unlink_list dev (gDeviceList s)) (devices s) in
  removal_stage k dev s =
    Some (tt,
          match k with
          | 0%nat | 1%nat => s
          | 2%nat => mkDriver (gLock s) (gDeviceCount s)
                          (unlink_list dev (gDeviceList s)) (devices s)
          | 3%nat | 4%nat => s3
          | 5%nat | 6%nat => set_devices (<[dev := set_ep_detect 0 d]> (devices s)) s3
          | _ => set_devices (delete dev (devices s)) s3
          end,
          match k with
          | 0%nat => []
          | 1%nat | 2%nat | 3%nat => [acquire_sem (gLock s)]
          | 4%nat | 5%nat => [acquire_sem (gLock s); release_sem (gLock s)]
          | 6%nat => [acquire_sem (gLock s); release_sem (gLock s);
                  cancel_queued_transfers (ep d)]
          | _ => [acquire_sem (gLock s); release_sem (gLock s);
                  cancel_queued_transfers (ep d); free dev]
          end).
Proof.
  intros Hd s3. unfold removal_stage, device_removed_body.
  assert (Hk : (k <= 7 \/ 7 < k)%nat) by lia.
  destruct Hk as [Hk | Hk].
  - destruct k as [|[|[|[|[|[|[|[|k]]]]]]]]; [..|lia];
      cbn [take seq];
      unfold lock_global, unlink, count_add, unlock_global, get, put, release;
      repeat first
        [ run_step
        | rewrite devices_set_devices
        | rewrite lookup_insert_eq
        | rewrite Hd
        | progress cbn [devices gLock gDeviceCount gDeviceList app] ];
      try reflexivity.
    unfold set_devices. cbn [devices gLock gDeviceCount gDeviceList].
    now rewrite delete_insert_eq.
  - destruct k as [|[|[|[|[|[|[|[|k]]]]]]]]; try lia.
    rewrite take_ge by (cbn; lia).
    cbn [seq];
      unfold lock_global, unlink, count_add, unlock_global, get, put, release;
      repeat first
        [ run_step
        | rewrite devices_set_devices
        | rewrite lookup_insert_eq
        | rewrite Hd
        | progress cbn [devices gLock gDeviceCount gDeviceList app] ].
    unfold set_devices. cbn [devices gLock gDeviceCount gDeviceList].
    now rewrite delete_insert_eq.
Qed.

Lemma not_cancel_requested_locks (a b : Z) :
  ~ cancel_requested [acquire_sem a; release_sem b].
Proof. intros [pipe [H|[H|[]]]]; discriminate H. Qed.

Lemma not_cancel_requested_lock (a : Z) : ~ cancel_requested [acquire_sem a].
Proof. intros [pipe [H|[]]]; discriminate H. Qed.

Lemma not_cancel_requested_nil : ~ cancel_requested [].
Proof. intros [pipe []]. Qed.

(** C3 (amended). A removal passes through its steps in this order: the
    device is unlinked from the registry and the count decremented; then
    the flag [ep_detect] is cleared; then the cancellation of the queued
    transfers is requested; then the device is released.  At every point
    of the removal a cleared flag implies that the unlink is done, a
    requested cancellation implies a cleared flag, and a released device
    implies a requested cancellation; nothing is done at the start and
    everything at the end. *)
Theorem removal_order (s : driver) (dev : ptr) (d : device) (k : nat) :
  devices s !! dev = Some d ->
  ep_detect d <> 0 ->
  dev ∈ gDeviceList s ->
  NoDup (gDeviceList s) ->
  exists s_k t_k,
    removal_stage k dev s = Some (tt, s_k, t_k) /\
    (~ streaming dev s_k ->
     ~ linked dev s_k /\ gDeviceCount s_k = u32 (gDeviceCount s - 1)) /\
    (cancel_requested t_k -> ~ streaming dev s_k) /\
    (released dev s_k -> cancel_requested t_k) /\
    (k = 0%nat ->
     streaming dev s_k /\ linked dev s_k /\ ~ cancel_requested t_k /\
     ~ released dev s_k) /\
    ((7 <= k)%nat ->
     released dev s_k /\ device_removed dev s = Some (B_OK, s_k, t_k)).
Proof.
  intros Hd Hflag Hin Hnd.
  pose proof (removal_stage_run s dev d k Hd) as Hrun. cbv zeta in Hrun.
  eexists. eexists. split; [exact Hrun|].
  assert (Hstream : streaming dev s) by (exists d; auto).
  assert (Hunl : dev ∉ unlink_list dev (gDeviceList s))
    by (rewrite unlink_list_delete_first; now apply NoDup_delete_first).
  assert (Hoff : forall s', ~ streaming dev
            (set_devices (<[dev := set_ep_detect 0 d]> (devices s)) s')).
  { intros s' (d' & Hd' & Hne).
    rewrite devices_set_devices, lookup_insert_eq in Hd'.
    injection Hd' as <-. now apply Hne. }
  assert (Hgone : forall s', ~ streaming dev
            (set_devices (delete dev (devices s)) s')).
  { intros s' (d' & Hd' & _).
    rewrite devices_set_devices, lookup_delete_eq in Hd'. discriminate Hd'. }
  assert (Hfull : device_removed dev s =
            Some (B_OK,
                  set_devices (delete dev (devices s))
                    (mkDriver (gLock s) (u32 (gDeviceCount s + -1))
                              (unlink_list dev (gDeviceList s)) (devices s)),
                  [acquire_sem (gLock s); release_sem (gLock s);
                   cancel_queued_transfers (ep d); free dev])).
  { pose proof (removal_stage_run s dev d 7 Hd) as H7. cbv zeta in H7.
    unfold removal_stage in H7. rewrite take_ge in H7 by (cbn; lia).
    unfold device_removed. rewrite bind_run, H7. run.
    cbn [app]. reflexivity. }
  assert (Hlive : ~ released dev s) by (unfold released; now rewrite Hd).
  destruct k as [|[|[|[|[|[|[|k]]]]]]];
    (split; [|split; [|split; [|split]]]);
    try (intros H; exfalso; lia);
    try (intros H; exfalso; apply H; exact Hstream);
    try (intros H; exfalso; apply H; exists d; split; [exact Hd | exact Hflag]);
    try (intros H; exfalso;
         first [ now apply not_cancel_requested_nil in H
               | now apply not_cancel_requested_lock in H
               | now apply not_cancel_requested_locks in H ]);
    try (intros H; exfalso; unfold released in H; cbn in H;
         first [ rewrite Hd in H | rewrite lookup_insert_eq in H ];
         discriminate H);
    try (intros _; split; [exact Hunl | reflexivity]);
    try (intros _; apply Hoff);
    try (intros _; apply Hgone).
  - intros _. repeat split; [exact Hstream | exact Hin | | exact Hlive].
    apply not_cancel_requested_nil.
  - intros _. exists (ep d). cbn. auto.
  - intros _. split; [|exact Hfull].
    unfold released. now rewrite devices_set_devices, lookup_delete_eq.
Qed.

Lemma removal_order_witness :
  exists s_k t_k,
    removal_stage 5 1 s0 = Some (tt, s_k, t_k) /\
    (~ streaming 1 s_k ->
     ~ linked 1 s_k /\ gDeviceCount s_k = u32 (gDeviceCount s0 - 1)) /\
    (cancel_requested t_k -> ~ streaming 1 s_k) /\
    (released 1 s_k -> cancel_requested t_k) /\
    (5%nat = 0%nat ->
     streaming 1 s_k /\ linked 1 s_k /\ ~ cancel_requested t_k /\
     ~ released 1 s_k) /\
    ((7 <= 5)%nat ->
     released 1 s_k /\ device_removed 1 s0 = Some (B_OK, s_k, t_k)).
Proof.
  apply (removal_order s0 1 d0 5).
  - reflexivity.
  - discriminate.
  - apply list_elem_of_In. cbn. auto.
  - apply NoDup_singleton.
Defined.

(** C3, as it is worded, fails: after the fourth statement of the removal
    the device is out of the registry while its flag is still set and no
    cancellation has been requested. *)
Lemma removal_unlinks_first :
  ~ removal_order_as_specified s0 1.
Proof.
  intros H.
  destruct (H 4%nat
              (mkDriver 3 0 [] {[ 1%positive := d0 ]})
              [acquire_sem 3; release_sem 3] eq_refl)
    as (_ & Hcancel & _).
  apply (not_cancel_requested_locks 3 3), Hcancel.
  unfold linked. cbn. apply not_elem_of_nil.
Qed.

(** ** [device_added], case by case *)

Section AddedRuns.

Variable A D : Z.

Lemma endpoint_loop_none (i : Z) (eps : list usb_endpoint_info) (d : device) :
  Forall (fun ep => ~ qualifying A D (descr ep)) eps ->
  endpoint_loop A D i eps d = d.
Proof.
  induction 1 as [|ep rest Hep _ IH]; cbn [endpoint_loop]; [reflexivity|].
  rewrite decide_True; [exact IH|].
  unfold qualifying in Hep.
  destruct (decide (A = attributes (descr ep))); [|now left].
  destruct (decide (D = Z.land (endpoint_address (descr ep)) D)); [|right; now left].
  destruct (decide (8 = max_packet_size (descr ep))); [|right; now right].
  exfalso. apply Hep. auto.
Qed.

Lemma interface_loop_none (i : Z) (ifs : list usb_interface_list) (d : device) :
  ep_detect d = 0 ->
  Forall (fun entry =>
            match active entry with
            | Some intf =>
                Forall (fun ep => ~ qualifying A D (descr ep)) (endpoint intf)
            | None => True
            end) ifs ->
  interface_loop A D i ifs d = d.
Proof.
  intros Hd Hall. revert i.
  induction Hall as [|entry rest Hentry _ IH]; intros i;
    cbn [interface_loop]; [reflexivity|].
  destruct (active entry) as [intf|]; [|apply IH].
  rewrite endpoint_loop_none by exact Hentry.
  rewrite decide_False by (rewrite Hd; auto). apply IH.
Qed.

(** The loops only ever set [ep_detect], [ep], [ep_address] and [ifno]. *)
Lemma endpoint_loop_keeps (i : Z) (eps : list usb_endpoint_info) (d : device) :
  bbu (endpoint_loop A D i eps d) = bbu d /\
  anime (endpoint_loop A D i eps d) = anime d /\
  udev (endpoint_loop A D i eps d) = udev d /\
  sem (endpoint_loop A D i eps d) = sem d.
Proof.
  induction eps as [|ep rest IH]; cbn [endpoint_loop]; [auto|].
  destruct (decide _); [exact IH | cbn; auto].
Qed.

Lemma interface_loop_keeps (i : Z) (ifs : list usb_interface_list) (d : device) :
  bbu (interface_loop A D i ifs d) = bbu d /\
  anime (interface_loop A D i ifs d) = anime d /\
  udev (interface_loop A D i ifs d) = udev d /\
  sem (interface_loop A D i ifs d) = sem d.
Proof.
  revert i d. induction ifs as [|entry rest IH]; intros i d;
    cbn [interface_loop]; [auto|].
  destruct (active entry) as [intf|]; [|apply IH].
  pose proof (endpoint_loop_keeps i (endpoint intf) d) as (H1 & H2 & H3 & H4).
  destruct (decide _).
  - auto.
  - destruct (IH (i + 1) (endpoint_loop A D i (endpoint intf) d))
      as (K1 & K2 & K3 & K4).
    repeat split; congruence.
Qed.

End AddedRuns.

Ltac live :=
  cbn [devices set_devices];
  first [ eassumption | apply lookup_insert_eq ].

Ltac run_heap :=
  repeat first
    [ rewrite bind_run
    | erewrite load_live by live
    | erewrite update_live by live
    | progress unfold call, mret, M_ret, get, put, lock_global, unlock_global,
        push_front, count_add
    | progress cbn beta iota
    | progress cbn [devices gLock gDeviceCount gDeviceList set_devices app] ].

Section AddedRun.

Variable A D : Z.

Lemma device_added_run (s : driver) (id : Z) (block : ptr) (sem_id : Z)
    (conf : option usb_configuration_info) (set_conf : status_t) :
  devices s !! block = None ->
  let s1 := mkDriver (gLock s) (u32 (gDeviceCount s + 1))
                     (block :: gDeviceList s) (devices s) in
  let prologue := [create_sem sem_id; acquire_sem (gLock s);
                   release_sem (gLock s); get_nth_configuration id 0] in
  device_added A D id (Some block) sem_id conf set_conf s =
    match conf with
    | None =>
        Some ((B_ERROR, Some block),
              set_devices (<[block := fresh_device id sem_id]> (devices s)) s1,
              prologue)
    | Some c =>
        let d := interface_loop A D 0 (interface c) (fresh_device id sem_id) in
        Some ((B_OK, Some block),
              set_devices (<[block := d]> (devices s)) s1,
              prologue ++
              (if decide (0 = ep_detect d)
               then [dprintf "yurex: can not find suitable endpoint"] else []) ++
              [set_configuration id] ++
              (if decide (B_OK <> set_conf)
               then [dprintf "yurex: can not set default configuration"] else []) ++
              [send_request id (Z.shiftl 2 8) (ifno d) 8 (mode_request 0);
               send_request id (Z.shiftl 2 8) (ifno d) 8 read_request;
               queue_interrupt (ep d) 8 block])
    end.
Proof.
  intros Hfresh s1 prologue.
  unfold device_added. rewrite bind_run. unfold alloc at 1. rewrite Hfresh.
  run_heap. rewrite !insert_insert_eq.
  cbn [ifno ep_detect ep_address ep bbu].
  change (mkDevice id 0 0 0 0 sem_id 0 1) with (fresh_device id sem_id).
  destruct conf as [c|]; [|reflexivity].
  run_heap. rewrite !insert_insert_eq.
  set (d := interface_loop A D 0 (interface c) (fresh_device id sem_id)).
  pose proof (interface_loop_keeps A D 0 (interface c) (fresh_device id sem_id))
    as (_ & _ & Hudev & _).
  fold d in Hudev. cbn [fresh_device udev] in Hudev.
  unfold yurex_set_mode, yurex_read_bbu, yurex_interrupt.
  destruct (decide (0 = ep_detect d)); destruct (decide (B_OK <> set_conf));
    run_heap; rewrite Hudev; reflexivity.
Qed.

End AddedRun.

(** ** Dead blocks: a dereference after [free] has no defined result *)

Lemma load_dead (s : driver) (dev : ptr) :
  devices s !! dev = None -> load dev s = None.
Proof. intros H. unfold load. now rewrite H. Qed.

Lemma yurex_callback_dead (s : driver) (dev : ptr) (status actualLength : Z)
    (req : list Z) :
  devices s !! dev = None ->
  yurex_callback dev status req actualLength s = None.
Proof.
  intros Hd. unfold yurex_callback, yurex_read_bbu.
  destruct (decide (CMD_VALUE = byte_at req 0 \/ CMD_READ = byte_at req 0)).
  - rewrite !bind_run, (load_dead _ _ Hd). reflexivity.
  - destruct (decide (CMD_ACK = byte_at req 0 /\ CMD_WRITE = byte_at req 1)).
    + rewrite !bind_run, (load_dead _ _ Hd). reflexivity.
    + run. now rewrite (load_dead _ _ Hd).
Qed.

Lemma device_removed_run (s : driver) (dev : ptr) (d : device) :
  devices s !! dev = Some d ->
  device_removed dev s =
    Some (B_OK,
          mkDriver (gLock s) (u32 (gDeviceCount s + -1))
                   (unlink_list dev (gDeviceList s)) (delete dev (devices s)),
          [acquire_sem (gLock s); release_sem (gLock s);
           cancel_queued_transfers (ep d); free dev]).
Proof.
  intros Hd.
  pose proof (removal_stage_run s dev d 7 Hd) as H7. cbv zeta in H7.
  unfold removal_stage in H7. rewrite take_ge in H7 by (cbn; lia).
  unfold device_removed. rewrite bind_run, H7. run.
  cbn [app]. reflexivity.
Qed.

Lemma device_removed_dead (s : driver) (dev : ptr) :
  devices s !! dev = None -> device_removed dev s = None.
Proof.
  intros Hd. unfold device_removed, device_removed_body. cbn [seq].
  unfold lock_global, unlink, count_add, unlock_global, get, put, update.
  run. now rewrite load_dead by (cbn [devices]; exact Hd).
Qed.

(** ** The footprint of the entry points *)

Lemma heap_footprint_refl (w : bool) (m : gmap ptr device) :
  heap_footprint w m m.
Proof. intros p d' H. left. exists d'. auto. Qed.

Lemma heap_footprint_update (w : bool) (m : gmap ptr device) (c : ptr)
    (d e : device) :
  m !! c = Some d ->
  ep_detect e = ep_detect d ->
  bbu e = bbu d \/ (w = true /\ 0 <= bbu e < 2 ^ 40) ->
  heap_footprint w m (<[c := e]> m).
Proof.
  intros Hc Hflag Hbbu p d' H.
  destruct (decide (c = p)) as [<-|Hne].
  - rewrite lookup_insert_eq in H. injection H as <-. left. exists d. auto.
  - rewrite lookup_insert_ne in H by exact Hne. left. exists d'. auto.
Qed.

Lemma heap_footprint_delete (w : bool) (m : gmap ptr device) (c : ptr) :
  heap_footprint w m (delete c m).
Proof.
  intros p d' H.
  destruct (decide (c = p)) as [<-|Hne].
  - rewrite lookup_delete_eq in H. discriminate H.
  - rewrite lookup_delete_ne in H by exact Hne. left. exists d'. auto.
Qed.

Lemma heap_footprint_alloc (w : bool) (m : gmap ptr device) (c : ptr)
    (e : device) :
  m !! c = None -> bbu e = 0 -> heap_footprint w m (<[c := e]> m).
Proof.
  intros Hc Hbbu p d' H.
  destruct (decide (c = p)) as [<-|Hne].
  - rewrite lookup_insert_eq in H. injection H as <-. right. auto.
  - rewrite lookup_insert_ne in H by exact Hne. left. exists d'. auto.
Qed.

Lemma arms_only_streaming_rearm (m : gmap ptr device) (dev : ptr) (d : device)
    (t : list event) :
  m !! dev = Some d ->
  Forall (fun e => is_arm e = false) t ->
  arms_only_streaming m (t ++ rearm dev d).
Proof.
  intros Hd Ht pipe len p Hin. apply in_app_or in Hin. destruct Hin as [Hin|Hin].
  - rewrite Forall_forall in Ht. apply list_elem_of_In in Hin.
    apply Ht in Hin. discriminate Hin.
  - unfold rearm in Hin. destruct (decide (0 <> ep_detect d)) as [Hne|]; [|destruct Hin].
    destruct Hin as [Heq|[]]. injection Heq as _ _ <-.
    left. exists d. split; [exact Hd | congruence].
Qed.

Lemma arms_only_streaming_quiet (m : gmap ptr device) (t : list event) :
  Forall (fun e => is_arm e = false) t -> arms_only_streaming m t.
Proof.
  intros Ht pipe len p Hin.
  rewrite Forall_forall in Ht. apply list_elem_of_In in Hin.
  apply Ht in Hin. discriminate Hin.
Qed.

Lemma yurex_callback_footprint (s s' : driver) (cookie : ptr)
    (status actualLength : Z) (req : list Z) (t : list event) :
  wf_packet req ->
  yurex_callback cookie status req actualLength s = Some (tt, s', t) ->
  heap_footprint true (devices s) (devices s') /\
  arms_only_streaming (devices s) t /\
  dom (devices s') = dom (devices s).
Proof.
  intros Hwf Hrun.
  destruct (devices s !! cookie) as [d|] eqn:Hd;
    [|now rewrite yurex_callback_dead in Hrun].
  destruct (decide (CMD_VALUE = byte_at req 0 \/ CMD_READ = byte_at req 0))
    as [Hop|Hop].
  - rewrite (yurex_callback_update s cookie d) in Hrun by assumption.
    injection Hrun as <- <-. rewrite devices_set_devices.
    destruct (bbu_loop_big_endian req Hwf) as [_ Hrange].
    split; [|split].
    + apply (heap_footprint_update _ _ _ d); [exact Hd | reflexivity | now right].
    + apply (arms_only_streaming_rearm _ _ _
               ([acquire_sem (sem d); release_sem (sem d)] ++
                (if decide (CMD_EOF <> byte_at req 6)
                 then [dprintf "yurex: invalid bbu delta EOF"] else [])));
        [exact Hd|].
      destruct (decide (CMD_EOF <> byte_at req 6)); repeat constructor.
    + apply dom_insert_lookup_L. now rewrite Hd.
  - destruct (decide (CMD_ACK = byte_at req 0 /\ CMD_WRITE = byte_at req 1))
      as [Hack|Hack].
    + rewrite (yurex_callback_ack s cookie d) in Hrun by assumption.
      injection Hrun as <- <-.
      split; [apply heap_footprint_refl|]. split; [|reflexivity].
      apply (arms_only_streaming_rearm _ _ _ [_]); [exact Hd|].
      repeat constructor.
    + rewrite (yurex_callback_other s cookie d) in Hrun by assumption.
      injection Hrun as <- <-.
      split; [apply heap_footprint_refl|]. split; [|reflexivity].
      apply (arms_only_streaming_rearm _ _ _ []); [exact Hd|].
      constructor.
Qed.

Lemma memcpy_from_state (buf data : list Z) (position len : Z) (s s' : driver)
    (t : list event) :
  memcpy_from buf position len s = Some (data, s', t) -> s' = s /\ t = [].
Proof.
  unfold memcpy_from.
  destruct (decide (len = 0)); [intros [= _ <- <-]; auto|].
  destruct (decide _); [intros [= _ <- <-]; auto | discriminate].
Qed.

Lemma device_read_footprint (s s' : driver) (cookie : dev_open)
    (position length : Z) (r : status_t * dev_open * list Z * Z)
    (t : list event) :
  device_read cookie position length s = Some (r, s', t) ->
  s' = s /\ Forall (fun e => is_arm e = false) t.
Proof.
  unfold device_read.
  destruct (decide (0 = position)) as [Hp|Hp].
  - destruct (devices s !! dev cookie) as [d|] eqn:Hd.
    + run.
      destruct (if decide (YUREX_DEVICE_TYPE_BBU = type cookie)
                then snprintf (buf cookie) 16 (fmt_ld (s64 (bbu d)) ++ [10])
                else snprintf (buf cookie) 16 (fmt_ld (anime d) ++ [10]))
        as [b n].
      run. cbn [buf buf_len].
      destruct (memcpy_from _ _ _ s) as [[[data s1] t1]|] eqn:Hcopy;
        [|discriminate].
      apply memcpy_from_state in Hcopy as [-> ->].
      intros [= _ <- <-]. split; [reflexivity | repeat constructor].
    + rewrite !bind_run, (load_dead _ _ Hd). discriminate.
  - run.
    destruct (memcpy_from _ _ _ s) as [[[data s1] t1]|] eqn:Hcopy;
      [|discriminate].
    apply memcpy_from_state in Hcopy as [-> ->].
    intros [= _ <- <-]. split; [reflexivity | repeat constructor].
Qed.

Lemma device_write_footprint (s s' : driver) (cookie : dev_open)
    (position : Z) (buffer : list Z) (length : Z) (r : status_t)
    (t : list event) :
  device_write cookie position buffer length s = Some (r, s', t) ->
  heap_footprint false (devices s) (devices s') /\
  Forall (fun e => is_arm e = false) t /\
  dom (devices s') = dom (devices s).
Proof.
  unfold device_write.
  destruct (decide (0 = length)) as [Hl|Hl].
  { intros [= _ <- <-]. split; [apply heap_footprint_refl|].
    split; [constructor | reflexivity]. }
  destruct (decide (YUREX_DEVICE_TYPE_ANIME = type cookie)) as [Hty|Hty].
  - destruct buffer as [|c rest]; [discriminate|].
    destruct (devices s !! dev cookie) as [d|] eqn:Hd.
    + pose proof (device_write_anime s cookie d position length c rest Hty Hd Hl)
        as Hrun.
      unfold device_write in Hrun.
      rewrite decide_False, decide_True in Hrun by assumption.
      rewrite Hrun. intros [= _ <- <-]. rewrite devices_set_devices.
      split; [|split].
      * apply (heap_footprint_update _ _ _ d); [exact Hd | reflexivity | now left].
      * repeat constructor.
      * apply dom_insert_lookup_L. now rewrite Hd.
    + destruct (decide (48 = c));
        rewrite !bind_run, (load_dead _ _ Hd); discriminate.
  - destruct (scan_digits buffer 0) as [v|]; [|discriminate].
    destruct (devices s !! dev cookie) as [d|] eqn:Hd.
    + rewrite bind_run, (write_packet_any s _ d v Hd). run.
      intros [= _ <- <-]. split; [apply heap_footprint_refl|].
      split; [repeat constructor | reflexivity].
    + unfold yurex_write_bbu. rewrite !bind_run, (load_dead _ _ Hd). discriminate.
Qed.

Section Footprint.

Variable A D : Z.

Lemma exec_footprint (o : op) (s s' : driver) (t : list event) :
  admissible o ->
  exec A D o s = Some (tt, s', t) ->
  heap_footprint (writes_counter o) (devices s) (devices s') /\
  arms_only_streaming (devices s) t /\
  (forall p, is_Some (devices s !! p) -> o <> Removed p ->
             is_Some (devices s' !! p)).
Proof.
  intros Hadm Hrun.
  destruct o as [id block sem_id conf set_conf | cookie
                | cookie status req len | cookie position length
                | cookie position buffer length]; cbn [exec] in Hrun.
  - (* device_added *)
    destruct block as [block|].
    + destruct (devices s !! block) as [d|] eqn:Hb.
      { unfold device_added, alloc in Hrun.
        rewrite !bind_run, Hb in Hrun. discriminate Hrun. }
      rewrite bind_run, (device_added_run A D s id block sem_id conf set_conf Hb)
        in Hrun.
      destruct conf as [c|]; cbv zeta in Hrun; run; injection Hrun as <- <-;
        rewrite devices_set_devices.
      * pose proof (interface_loop_keeps A D 0 (interface c)
                      (fresh_device id sem_id)) as (Hbbu & _).
        split; [|split].
        -- apply heap_footprint_alloc; [exact Hb | exact Hbbu].
        -- intros pipe len p Hin. rewrite app_nil_r in Hin.
           repeat rewrite in_app_iff in Hin.
           destruct (decide (0 = ep_detect _)), (decide (B_OK <> set_conf));
             cbn [In app] in Hin; intuition (try discriminate);
             match goal with
             | H : queue_interrupt _ _ _ = queue_interrupt _ _ _ |- _ =>
                 injection H as _ _ <-; now right
             end.
        -- intros p Hp _. destruct (decide (block = p)) as [<-|Hne].
           ++ rewrite lookup_insert_eq. eauto.
           ++ now rewrite lookup_insert_ne.
      * split; [|split].
        -- apply heap_footprint_alloc; [exact Hb | reflexivity].
        -- apply arms_only_streaming_quiet. repeat constructor.
        -- intros p Hp _. destruct (decide (block = p)) as [<-|Hne].
           ++ rewrite lookup_insert_eq. eauto.
           ++ now rewrite lookup_insert_ne.
    + unfold device_added in Hrun. run. injection Hrun as <- <-.
      split; [apply heap_footprint_refl|].
      split; [apply arms_only_streaming_quiet; constructor | auto].
  - (* device_removed *)
    destruct (devices s !! cookie) as [d|] eqn:Hd;
      [|now rewrite bind_run, device_removed_dead in Hrun].
    rewrite bind_run, (device_removed_run s cookie d Hd) in Hrun. run.
    injection Hrun as <- <-. cbn [devices].
    split; [apply heap_footprint_delete|].
    split; [apply arms_only_streaming_quiet; repeat constructor|].
    intros p Hp Hne. rewrite lookup_delete_ne; [exact Hp | congruence].
  - (* yurex_callback *)
    destruct (yurex_callback_footprint s s' cookie status len req t Hadm Hrun)
      as (H1 & H2 & H3).
    split; [exact H1|]. split; [exact H2|].
    intros p Hp _. apply elem_of_dom. rewrite H3. now apply elem_of_dom.
  - (* device_read *)
    rewrite bind_run in Hrun.
    destruct (device_read cookie position length s) as [[[r s1] t1]|] eqn:Hr;
      [|discriminate Hrun].
    run. injection Hrun as <- <-.
    apply device_read_footprint in Hr as [-> Hq].
    split; [apply heap_footprint_refl|].
    split; [|auto]. apply arms_only_streaming_quiet.
    now rewrite app_nil_r.
  - (* device_write *)
    rewrite bind_run in Hrun.
    destruct (device_write cookie position buffer length s)
      as [[[r s1] t1]|] eqn:Hw; [|discriminate Hrun].
    run. injection Hrun as <- <-.
    apply device_write_footprint in Hw as (H1 & H2 & H3).
    split; [exact H1|]. split.
    + apply arms_only_streaming_quiet. now rewrite app_nil_r.
    + intros p Hp _. apply elem_of_dom. rewrite H3. now apply elem_of_dom.
Qed.

End Footprint.

(** ** C2: re-arming is gated by the flag *)

Section Rearm.

Variable A D : Z.

(** A cleared flag stays cleared, and nothing is armed for the device,
    whatever entry points run while the device is not released. *)
Lemma exec_all_flag_clear (ops : list op) (s s' : driver) (t : list event)
    (dev : ptr) :
  ~ streaming dev s ->
  is_Some (devices s !! dev) ->
  Forall admissible ops ->
  Forall (fun o => o <> Removed dev) ops ->
  exec_all A D ops s = Some (tt, s', t) ->
  ~ streaming dev s' /\
  is_Some (devices s' !! dev) /\
  forall pipe len, ~ In (queue_interrupt pipe len dev) t.
Proof.
  revert s t. induction ops as [|o rest IH]; intros s t Hoff Hlive Hadm Hne Hrun.
  - cbn [exec_all] in Hrun. injection Hrun as <- <-.
    repeat split; auto.
  - cbn [exec_all] in Hrun. rewrite bind_run in Hrun.
    destruct (exec A D o s) as [[[[] s1] t1]|] eqn:Ho; [|discriminate Hrun].
    destruct (exec_all A D rest s1) as [[[[] s2] t2]|] eqn:Hrest;
      [|discriminate Hrun].
    injection Hrun as <- <-.
    apply Forall_cons in Hadm as [Hadm1 Hadm].
    apply Forall_cons in Hne as [Hne1 Hne].
    destruct (exec_footprint A D o s s1 t1 Hadm1 Ho) as (Hfoot & Harm & Hkeep).
    assert (Hlive1 : is_Some (devices s1 !! dev)) by now apply Hkeep.
    assert (Hoff1 : ~ streaming dev s1).
    { intros (d1 & Hd1 & Hflag1).
      destruct (Hfoot dev d1 Hd1) as [(d & Hd & Hflag & _) | [Hnone _]].
      - apply Hoff. exists d. split; [exact Hd | congruence].
      - destruct Hlive as [d Hd]. congruence. }
    destruct (IH s1 t2 Hoff1 Hlive1 Hadm Hne Hrest) as (H1 & H2 & H3).
    split; [exact H1|]. split; [exact H2|].
    intros pipe len Hin. apply in_app_or in Hin as [Hin|Hin].
    + destruct (Harm pipe len dev Hin) as [(d & Hd & Hflag) | Hnone].
      * apply Hoff. exists d. auto.
      * destruct Hlive as [d Hd]. congruence.
    + exact (H3 pipe len Hin).
Qed.

(** C2. Every invocation of the completion handler on a live device ends
    with exactly one [queue_interrupt] when the flag [ep_detect] of the
    device is set, and arms nothing when the flag is clear; it leaves the
    flag as it found it.  Once a removal has cleared the flag (after its
    fifth or sixth statement), no run of entry points that leaves the
    removal to finish arms a receive for the device again. *)
Theorem rearm_gated_by_flag (s : driver) (dev : ptr) (d : device)
    (status len : Z) (req : list Z) (k : nat) (ops : list op) :
  devices s !! dev = Some d ->
  (exists s' t0 d',
     yurex_callback dev status req len s =
       Some (tt, s',
             t0 ++ (if decide (ep_detect d <> 0)
                    then [queue_interrupt (ep d) 8 dev] else [])) /\
     arm_count t0 = 0%nat /\
     devices s' !! dev = Some d' /\ ep_detect d' = ep_detect d) /\
  ((k = 5 \/ k = 6)%nat ->
   Forall admissible ops ->
   Forall (fun o => o <> Removed dev) ops ->
   exists s_k t_k,
     removal_stage k dev s = Some (tt, s_k, t_k) /\
     ~ streaming dev s_k /\
     forall s' t',
       exec_all A D ops s_k = Some (tt, s', t') ->
       ~ streaming dev s' /\
       forall pipe n, ~ In (queue_interrupt pipe n dev) t').
Proof.
  intros Hd. split.
  - assert (Hre : rearm dev d =
                  if decide (ep_detect d <> 0)
                  then [queue_interrupt (ep d) 8 dev] else []).
    { unfold rearm.
      destruct (decide (0 <> ep_detect d)), (decide (ep_detect d <> 0));
        first [reflexivity | exfalso; lia]. }
    rewrite <- Hre.
    destruct (decide (CMD_VALUE = byte_at req 0 \/ CMD_READ = byte_at req 0))
      as [Hop|Hop];
      [|destruct (decide (CMD_ACK = byte_at req 0 /\ CMD_WRITE = byte_at req 1))
          as [Hack|Hack]].
    + rewrite (yurex_callback_update s dev d) by assumption.
      eexists. eexists. exists (set_bbu (bbu_loop req 1 5 0) d).
      split; [rewrite app_assoc; reflexivity|].
      split; [now destruct (decide (CMD_EOF <> byte_at req 6))|].
      split; [apply lookup_set_devices_insert | reflexivity].
    + rewrite (yurex_callback_ack s dev d) by assumption.
      eexists. exists [send_request (udev d) (Z.shiftl 2 8) (ifno d) 8 read_request].
      exists d. repeat split; assumption.
    + rewrite (yurex_callback_other s dev d) by assumption.
      eexists. exists []. exists d. repeat split; assumption.
  - intros Hk Hadm Hne.
    pose proof (removal_stage_run s dev d k Hd) as Hrun. cbv zeta in Hrun.
    eexists. eexists. split; [exact Hrun|].
    assert (Hstate :
      (match k with
       | 0%nat | 1%nat => s
       | 2%nat => mkDriver (gLock s) (gDeviceCount s)
                           (unlink_list dev (gDeviceList s)) (devices s)
       | 3%nat | 4%nat =>
           mkDriver (gLock s) (u32 (gDeviceCount s + -1))
                    (unlink_list dev (gDeviceList s)) (devices s)
       | 5%nat | 6%nat =>
           set_devices (<[dev := set_ep_detect 0 d]> (devices s))
             (mkDriver (gLock s) (u32 (gDeviceCount s + -1))
                       (unlink_list dev (gDeviceList s)) (devices s))
       | _ => set_devices (delete dev (devices s))
                (mkDriver (gLock s) (u32 (gDeviceCount s + -1))
                          (unlink_list dev (gDeviceList s)) (devices s))
       end) =
      set_devices (<[dev := set_ep_detect 0 d]> (devices s))
        (mkDriver (gLock s) (u32 (gDeviceCount s + -1))
                  (unlink_list dev (gDeviceList s)) (devices s)))
      by (destruct Hk as [-> | ->]; reflexivity).
    rewrite Hstate. clear Hstate Hrun.
    assert (Hoff : ~ streaming dev
              (set_devices (<[dev := set_ep_detect 0 d]> (devices s))
                 (mkDriver (gLock s) (u32 (gDeviceCount s + -1))
                           (unlink_list dev (gDeviceList s)) (devices s)))).
    { intros (d' & Hd' & Hflag).
      rewrite devices_set_devices, lookup_insert_eq in Hd'.
      injection Hd' as <-. now apply Hflag. }
    split; [exact Hoff|].
    intros s' t' Hops.
    destruct (exec_all_flag_clear ops _ s' t' dev Hoff) as (H1 & _ & H3); auto.
    rewrite devices_set_devices, lookup_insert_eq. eauto.
Qed.

End Rearm.

Lemma rearm_gated_by_flag_witness :
  (exists s' t0 d',
     yurex_callback 1 0 value_300 8 s0 =
       Some (tt, s', t0 ++ [queue_interrupt 5 8 1]) /\
     arm_count t0 = 0%nat /\
     devices s' !! 1%positive = Some d' /\ ep_detect d' = 1) /\
  (exists s_k t_k,
     removal_stage 5 1 s0 = Some (tt, s_k, t_k) /\
     ~ streaming 1 s_k /\
     forall s' t',
       exec_all 3 128 racing_ops s_k = Some (tt, s', t') ->
       ~ streaming 1 s' /\
       forall pipe n, ~ In (queue_interrupt pipe n 1%positive) t').
Proof.
  destruct (rearm_gated_by_flag 3 128 s0 1 d0 0 8 value_300 5%nat racing_ops
              eq_refl) as [Ha Hb].
  split; [exact Ha|].
  apply Hb.
  - left; reflexivity.
  - repeat constructor; unfold is_uint8; lia.
  - repeat constructor; discriminate.
Defined.

(** The run of the witness is a defined one. *)
Example racing_ops_run :
  exists s' t',
    exec_all 3 128 racing_ops
      (mkDriver 3 0 [] {[ 1%positive := set_ep_detect 0 d0 ]}) =
      Some (tt, s', t') /\
    arm_count t' = 0%nat /\
    devices s' !! 1%positive = Some (mkDevice 7 0 0 129 5 11 300 1).
Proof. eexists. eexists. split; [reflexivity|]. split; reflexivity. Qed.

(** After the release the completion handler has no defined behaviour on
    the cookie: it would read freed memory. *)
Lemma callback_after_release_undefined (s s' : driver) (dev : ptr)
    (t : list event) (status len : Z) (req : list Z) :
  device_removed dev s = Some (B_OK, s', t) ->
  yurex_callback dev status req len s' = None.
Proof.
  intros Hrem. apply yurex_callback_dead.
  destruct (devices s !! dev) as [d|] eqn:Hd;
    [|now rewrite device_removed_dead in Hrem].
  rewrite (device_removed_run s dev d Hd) in Hrem.
  injection Hrem as <- _. cbn [devices]. apply lookup_delete_eq.
Qed.

(** ** C5: a device without a qualifying endpoint *)

Section NoEndpoint.

Variable A D : Z.

(** C5. When no endpoint qualifies, [device_added] still registers the
    device and leaves its flag [ep_detect] clear, so that no completion
    handler ever re-arms a receive for it; but the initialization itself
    ends with [queue_interrupt] on the pipe handle 0 of the zeroed
    device: the receive is armed once, at initialization. *)
Theorem device_added_without_endpoint (s : driver) (id : Z) (block : ptr)
    (sem_id : Z) (conf : usb_configuration_info) (set_conf : status_t) :
  devices s !! block = None ->
  no_qualifying_endpoint A D conf ->
  exists s' t0,
    device_added A D id (Some block) sem_id (Some conf) set_conf s =
      Some ((B_OK, Some block), s', t0 ++ [queue_interrupt 0 8 block]) /\
    arm_count t0 = 0%nat /\
    linked block s' /\
    gDeviceCount s' = u32 (gDeviceCount s + 1) /\
    devices s' !! block = Some (fresh_device id sem_id) /\
    ~ streaming block s' /\
    forall status len req,
      exists s'' t,
        yurex_callback block status req len s' = Some (tt, s'', t) /\
        arm_count t = 0%nat.
Proof.
  intros Hfresh Hnone.
  rewrite (device_added_run A D s id block sem_id (Some conf) set_conf Hfresh).
  cbv zeta.
  rewrite (interface_loop_none A D 0 (interface conf) (fresh_device id sem_id))
    by (try reflexivity; exact Hnone).
  cbn [fresh_device ep_detect ep ifno].
  rewrite decide_True by reflexivity.
  change (mkDevice id 0 0 0 0 sem_id 0 1) with (fresh_device id sem_id).
  set (s' := set_devices (<[block := fresh_device id sem_id]> (devices s)) _).
  assert (Hlive : devices s' !! block = Some (fresh_device id sem_id))
    by apply lookup_insert_eq.
  exists s'.
  exists ([create_sem sem_id; acquire_sem (gLock s); release_sem (gLock s);
           get_nth_configuration id 0;
           dprintf "yurex: can not find suitable endpoint";
           set_configuration id] ++
          (if decide (B_OK <> set_conf)
           then [dprintf "yurex: can not set default configuration"] else []) ++
          [send_request id (Z.shiftl 2 8) 0 8 (mode_request 0);
           send_request id (Z.shiftl 2 8) 0 8 read_request]).
  split; [now destruct (decide (B_OK <> set_conf))|].
  split; [now destruct (decide (B_OK <> set_conf))|].
  split; [unfold linked; cbn; apply elem_of_cons; now left|].
  split; [reflexivity|].
  split; [exact Hlive|].
  split.
  - intros (d' & Hd' & Hflag). rewrite Hlive in Hd'. injection Hd' as <-.
    now apply Hflag.
  - intros status len req.
    assert (Hquiet : rearm block (fresh_device id sem_id) = []) by reflexivity.
    destruct (decide (CMD_VALUE = byte_at req 0 \/ CMD_READ = byte_at req 0))
      as [Hop|Hop];
      [|destruct (decide (CMD_ACK = byte_at req 0 /\ CMD_WRITE = byte_at req 1))
          as [Hack|Hack]].
    + rewrite (yurex_callback_update s' block (fresh_device id sem_id))
        by assumption.
      rewrite Hquiet. eexists. eexists. split; [reflexivity|].
      now destruct (decide (CMD_EOF <> byte_at req 6)).
    + rewrite (yurex_callback_ack s' block (fresh_device id sem_id))
        by assumption.
      rewrite Hquiet. eexists. eexists. split; reflexivity.
    + rewrite (yurex_callback_other s' block (fresh_device id sem_id))
        by assumption.
      rewrite Hquiet. eexists. eexists. split; reflexivity.
Qed.

End NoEndpoint.

Lemma device_added_without_endpoint_witness :
  exists s' t0,
    device_added 3 128 9 (Some 2%positive) 12 (Some bulk_only) B_OK s0 =
      Some ((B_OK, Some 2%positive), s', t0 ++ [queue_interrupt 0 8 2]) /\
    arm_count t0 = 0%nat /\
    linked 2 s' /\
    gDeviceCount s' = u32 (gDeviceCount s0 + 1) /\
    devices s' !! 2%positive = Some (fresh_device 9 12) /\
    ~ streaming 2 s' /\
    forall status len req,
      exists s'' t,
        yurex_callback 2 status req len s' = Some (tt, s'', t) /\
        arm_count t = 0%nat.
Proof.
  apply (device_added_without_endpoint 3 128 s0 9 2 12 bulk_only B_OK).
  - reflexivity.
  - repeat constructor. intros (H & _). discriminate H.
Defined.

(** ** Decimal text *)

Lemma decimal_value_snoc (digits : list Z) (c : Z) :
  decimal_value (digits ++ [c]) = decimal_value digits * 10 + (c - 48).
Proof. unfold decimal_value. now rewrite fold_left_app. Qed.

(** [dec_digits] puts in front of [acc] the digits of [n]: they denote
    [n], and there are at most [k] of them when [n < 10 ^ k]. *)
Lemma dec_digits_spec (fuel : nat) (n : Z) (acc : list Z) :
  0 <= n < 10 ^ Z.of_nat fuel ->
  exists digits,
    dec_digits fuel n acc = digits ++ acc /\
    Forall (fun x => is_digit x = true) digits /\
    decimal_value digits = n /\
    forall k : nat, (0 < k)%nat -> n < 10 ^ Z.of_nat k ->
                    (length digits <= k)%nat.
Proof.
  revert n acc. induction fuel as [|fuel IH]; intros n acc Hn.
  - exists []. change (10 ^ Z.of_nat 0) with 1 in Hn.
    assert (n = 0) as -> by lia.
    repeat split; [constructor | intros; cbn; lia].
  - cbn [dec_digits].
    assert (Hdigit : is_digit (48 + n mod 10) = true)
      by (apply is_digit_spec; pose proof (Z.mod_pos_bound n 10); lia).
    destruct (decide (n / 10 = 0)) as [Hz|Hnz].
    + exists [48 + n mod 10]. repeat split.
      * repeat constructor. exact Hdigit.
      * unfold decimal_value. cbn [fold_left].
        pose proof (Z.div_mod n 10). lia.
      * intros k Hk _. cbn. lia.
    + destruct (IH (n / 10) ((48 + n mod 10) :: acc)) as (ds & Heq & Hall & Hval & Hlen).
      { rewrite Nat2Z.inj_succ, Z.pow_succ_r in Hn by lia.
        split; [apply Z.div_pos; lia|].
        apply Z.div_lt_upper_bound; lia. }
      exists (ds ++ [48 + n mod 10]). repeat split.
      * now rewrite Heq, <- app_assoc.
      * apply Forall_app. split; [exact Hall | repeat constructor; exact Hdigit].
      * rewrite decimal_value_snoc, Hval. pose proof (Z.div_mod n 10). lia.
      * intros k Hk Hnk. rewrite length_app. cbn [length].
        destruct k as [|k]; [lia|].
        rewrite Nat2Z.inj_succ, Z.pow_succ_r in Hnk by lia.
        assert (Hdiv : n / 10 < 10 ^ Z.of_nat k)
          by (apply Z.div_lt_upper_bound; lia).
        assert (0 < n / 10) by (pose proof (Z.div_pos n 10); lia).
        destruct k as [|k]; [change (10 ^ Z.of_nat 0) with 1 in Hdiv; lia|].
        specialize (Hlen (S k) ltac:(lia) Hdiv). lia.
Qed.

(** The text of a 40-bit counter: at most 13 digits that denote it. *)
Lemma fmt_ld_counter (v : Z) :
  0 <= v < 2 ^ 40 ->
  Forall (fun x => is_digit x = true) (fmt_ld (s64 v)) /\
  decimal_value (fmt_ld (s64 v)) = v /\
  (length (fmt_ld (s64 v)) <= 13)%nat.
Proof.
  intros Hv.
  assert (Hs : s64 v = v).
  { unfold s64, u64. rewrite Z.mod_small by lia.
    rewrite decide_True by lia. reflexivity. }
  rewrite Hs. unfold fmt_ld. rewrite decide_False by lia.
  destruct (dec_digits_spec 20 v []) as (ds & Heq & Hall & Hval & Hlen).
  { change (10 ^ Z.of_nat 20) with 100000000000000000000. lia. }
  rewrite Heq, app_nil_r.
  split; [exact Hall|]. split; [exact Hval|].
  apply Hlen; [lia|]. change (10 ^ Z.of_nat 13) with 10000000000000. lia.
Qed.


(** ** C10: the counter is a 40-bit value *)

Section Counter.

Variable A D : Z.

Lemma reachable_counter_range (s : driver) :
  reachable A D s ->
  forall p d, devices s !! p = Some d -> 0 <= bbu d < 2 ^ 40.
Proof.
  induction 1 as [lock | s s' o t Hreach IH Hadm Hrun]; intros p d Hd.
  - cbn in Hd. rewrite lookup_empty in Hd. discriminate Hd.
  - destruct (exec_footprint A D o s s' t Hadm Hrun) as (Hfoot & _ & _).
    destruct (Hfoot p d Hd) as [(d0 & Hd0 & _ & [Hsame | [_ Hrange]]) | [_ Hzero]].
    + rewrite Hsame. now apply (IH p).
    + exact Hrange.
    + rewrite Hzero. lia.
Qed.

(** C10. In every state the driver can reach, the counter of every live
    device lies in [0, 2^40).  An entry point leaves the counter of a
    device as it is unless it is the completion handler, which stores a
    value below 2^40, and a device enters the heap with the counter at
    zero.  Hence a read at offset 0 of a Counter handle stages at most 13
    decimal digits and a newline, and the digits denote the counter. *)
Theorem counter_stays_40_bit (s : driver) :
  reachable A D s ->
  (forall p d, devices s !! p = Some d -> 0 <= bbu d < 2 ^ 40) /\
  (forall o s' t,
     admissible o -> exec A D o s = Some (tt, s', t) ->
     heap_footprint (writes_counter o) (devices s) (devices s')) /\
  (forall cookie d n,
     type cookie = YUREX_DEVICE_TYPE_BBU ->
     devices s !! dev cookie = Some d ->
     length (buf cookie) = 16%nat ->
     0 <= n ->
     exists cookie' digits,
       device_read cookie 0 n s =
         Some (B_OK, cookie',
               take (Z.to_nat (Z.min n (Z.of_nat (length (digits ++ [10])))))
                    (digits ++ [10]),
               Z.min n (Z.of_nat (length (digits ++ [10]))), s,
               [acquire_sem (sem d); release_sem (sem d)]) /\
       Forall (fun x => is_digit x = true) digits /\
       (length digits <= 13)%nat /\
       decimal_value digits = bbu d /\
       scan_digits (digits ++ [10]) 0 = Some (bbu d) /\
       bbu d < 2 ^ 40).
Proof.
  intros Hreach.
  pose proof (reachable_counter_range s Hreach) as Hrange.
  split; [exact Hrange|]. split.
  - intros o s' t Hadm Hrun.
    now destruct (exec_footprint A D o s s' t Hadm Hrun).
  - intros cookie d n Hty Hd Hbuf Hn.
    pose proof (Hrange _ _ Hd) as Hv.
    destruct (fmt_ld_counter (bbu d) Hv) as (Hall & Hval & Hlen).
    assert (Htext : staged_text cookie d = fmt_ld (s64 (bbu d)) ++ [10])
      by (unfold staged_text; now rewrite Hty, decide_True by reflexivity).
    pose proof (device_read_stage cookie n s d Hd Hbuf) as Hread.
    rewrite Htext in Hread. cbv zeta in Hread.
    eexists. exists (fmt_ld (s64 (bbu d))).
    split; [apply Hread; [rewrite length_app; cbn; lia | exact Hn]|].
    split; [exact Hall|]. split; [exact Hlen|]. split; [exact Hval|].
    split; [|lia].
    rewrite (scan_digits_run _ 10 [] 0 0); [| exact Hall | reflexivity | reflexivity].
    fold (decimal_value (fmt_ld (s64 (bbu d)))). rewrite Hval.
    unfold u64. now rewrite Z.mod_small by lia.
Qed.

End Counter.

Lemma reachable_s_300 : reachable 3 128 s_300.
Proof.
  apply (reachable_step 3 128
           (mkDriver 3 1 [2%positive]
                     {[ 2%positive := mkDevice 9 0 1 0x81 77 12 0 1 ]})
           s_300 (Callback 2 0 value_300 8)
           [acquire_sem 12; release_sem 12; queue_interrupt 77 8 2]).
  - apply (reachable_step 3 128 (init_driver 3) _
             (Added 9 (Some 2%positive) 12 (Some sensor_conf) B_OK)
             [create_sem 12; acquire_sem 3; release_sem 3;
              get_nth_configuration 9 0; set_configuration 9;
              send_request 9 512 0 8 (mode_request 0);
              send_request 9 512 0 8 read_request;
              queue_interrupt 77 8 2]).
    + apply reachable_init.
    + exact I.
    + reflexivity.
  - split; [reflexivity | repeat constructor; unfold is_uint8; lia].
  - reflexivity.
Qed.

Lemma counter_stays_40_bit_witness :
  (forall p d, devices s_300 !! p = Some d -> 0 <= bbu d < 2 ^ 40) /\
  (forall o s' t,
     admissible o -> exec 3 128 o s_300 = Some (tt, s', t) ->
     heap_footprint (writes_counter o) (devices s_300) (devices s')) /\
  (forall cookie d n,
     type cookie = YUREX_DEVICE_TYPE_BBU ->
     devices s_300 !! dev cookie = Some d ->
     length (buf cookie) = 16%nat ->
     0 <= n ->
     exists cookie' digits,
       device_read cookie 0 n s_300 =
         Some (B_OK, cookie',
               take (Z.to_nat (Z.min n (Z.of_nat (length (digits ++ [10])))))
                    (digits ++ [10]),
               Z.min n (Z.of_nat (length (digits ++ [10]))), s_300,
               [acquire_sem (sem d); release_sem (sem d)]) /\
       Forall (fun x => is_digit x = true) digits /\
       (length digits <= 13)%nat /\
       decimal_value digits = bbu d /\
       scan_digits (digits ++ [10]) 0 = Some (bbu d) /\
       bbu d < 2 ^ 40).
Proof.
  apply (counter_stays_40_bit 3 128 s_300).
  apply (reachable_step 3 128
           (mkDriver 3 1 [2%positive]
                     {[ 2%positive := mkDevice 9 0 1 0x81 77 12 0 1 ]})
           s_300 (Callback 2 0 value_300 8)
           [acquire_sem 12; release_sem 12; queue_interrupt 77 8 2]).
  - apply (reachable_step 3 128 (init_driver 3) _
             (Added 9 (Some 2%positive) 12 (Some sensor_conf) B_OK)
             [create_sem 12; acquire_sem 3; release_sem 3;
              get_nth_configuration 9 0; set_configuration 9;
              send_request 9 512 0 8 (mode_request 0);
              send_request 9 512 0 8 read_request;
              queue_interrupt 77 8 2]).
    + apply reachable_init.
    + exact I.
    + reflexivity.
  - split; [reflexivity | repeat constructor; unfold is_uint8; lia].
  - reflexivity.
Defined.

(** The scenario of the sensor: plugged in, it reports 300, and the
    Counter handle reads the text 300 and a newline. *)
Example read_counter_300 :
  exists cookie',
    device_read (mkDevOpen 2 0 (replicate 16 0) 0) 0 16 s_300 =
      Some (B_OK, cookie', [51; 48; 48; 10], 4, s_300,
            [acquire_sem 12; release_sem 12]).
Proof. eexists. reflexivity. Qed.

(** ** The registry over the life of the driver *)

Lemma registry_ok_set_devices (s : driver) (m : gmap ptr device) :
  dom m = dom (devices s) ->
  registry_ok s -> registry_ok (set_devices m s).
Proof.
  intros Hdom (Hnd & Hlive & Hcount). split; [exact Hnd|]. split; [|exact Hcount].
  intros p. cbn [gDeviceList devices set_devices].
  rewrite Hlive, <- !elem_of_dom, Hdom. reflexivity.
Qed.

Lemma yurex_callback_frame (s s' : driver) (cookie : ptr)
    (status actualLength : Z) (req : list Z) (t : list event) :
  yurex_callback cookie status req actualLength s = Some (tt, s', t) ->
  exists m, s' = set_devices m s /\ dom m = dom (devices s).
Proof.
  intros Hrun.
  destruct (devices s !! cookie) as [d|] eqn:Hd;
    [|now rewrite yurex_callback_dead in Hrun].
  destruct (decide (CMD_VALUE = byte_at req 0 \/ CMD_READ = byte_at req 0))
    as [Hop|Hop];
    [|destruct (decide (CMD_ACK = byte_at req 0 /\ CMD_WRITE = byte_at req 1))
        as [Hack|Hack]].
  - rewrite (yurex_callback_update s cookie d) in Hrun by assumption.
    injection Hrun as <- _. eexists. split; [reflexivity|].
    apply dom_insert_lookup_L. now rewrite Hd.
  - rewrite (yurex_callback_ack s cookie d) in Hrun by assumption.
    injection Hrun as <- _. exists (devices s).
    now rewrite set_devices_same.
  - rewrite (yurex_callback_other s cookie d) in Hrun by assumption.
    injection Hrun as <- _. exists (devices s).
    now rewrite set_devices_same.
Qed.

Lemma device_write_frame (s s' : driver) (cookie : dev_open)
    (position : Z) (buffer : list Z) (length : Z) (r : status_t)
    (t : list event) :
  device_write cookie position buffer length s = Some (r, s', t) ->
  exists m, s' = set_devices m s /\ dom m = dom (devices s).
Proof.
  unfold device_write.
  destruct (decide (0 = length)) as [Hl|Hl].
  { intros [= _ <- _]. exists (devices s). now rewrite set_devices_same. }
  destruct (decide (YUREX_DEVICE_TYPE_ANIME = type cookie)) as [Hty|Hty].
  - destruct buffer as [|c rest]; [discriminate|].
    destruct (devices s !! dev cookie) as [d|] eqn:Hd.
    + pose proof (device_write_anime s cookie d position length c rest Hty Hd Hl)
        as Hrun.
      unfold device_write in Hrun.
      rewrite decide_False, decide_True in Hrun by assumption.
      rewrite Hrun. intros [= _ <- _]. eexists. split; [reflexivity|].
      apply dom_insert_lookup_L. now rewrite Hd.
    + destruct (decide (48 = c));
        rewrite !bind_run, (load_dead _ _ Hd); discriminate.
  - destruct (scan_digits buffer 0) as [v|]; [|discriminate].
    destruct (devices s !! dev cookie) as [d|] eqn:Hd.
    + rewrite bind_run, (write_packet_any s _ d v Hd). run.
      intros [= _ <- _]. exists (devices s). now rewrite set_devices_same.
    + unfold yurex_write_bbu. rewrite !bind_run, (load_dead _ _ Hd). discriminate.
Qed.

Lemma u32_succ (n : Z) : u32 (u32 n + 1) = u32 (n + 1).
Proof. unfold u32. now rewrite Zplus_mod_idemp_l. Qed.

Lemma u32_pred (n : Z) : u32 (u32 n + -1) = u32 (n + -1).
Proof. unfold u32. now rewrite Zplus_mod_idemp_l. Qed.

Section Registry.

Variable A D : Z.

Lemma exec_registry_ok (o : op) (s s' : driver) (t : list event) :
  registry_ok s ->
  exec A D o s = Some (tt, s', t) ->
  registry_ok s'.
Proof.
  intros Hok Hrun.
  destruct o as [id block sem_id conf set_conf | cookie
                | cookie status req len | cookie position length
                | cookie position buffer length]; cbn [exec] in Hrun.
  - (* device_added *)
    destruct block as [block|].
    + destruct (devices s !! block) as [d|] eqn:Hb.
      { unfold device_added, alloc in Hrun.
        rewrite !bind_run, Hb in Hrun. discriminate Hrun. }
      rewrite bind_run, (device_added_run A D s id block sem_id conf set_conf Hb)
        in Hrun.
      destruct Hok as (Hnd & Hlive & Hcount).
      assert (Hnew : block ∉ gDeviceList s).
      { rewrite Hlive, Hb. intros [x Hx]. discriminate Hx. }
      assert (Hgoal : forall e,
                registry_ok
                  (set_devices (<[block := e]> (devices s))
                     (mkDriver (gLock s) (u32 (gDeviceCount s + 1))
                               (block :: gDeviceList s) (devices s)))).
      { intros e. split; [now constructor|]. split.
        - intros p. cbn [gDeviceList devices set_devices].
          rewrite elem_of_cons, Hlive.
          destruct (decide (block = p)) as [<-|Hne].
          + rewrite lookup_insert_eq. split; eauto.
          + rewrite lookup_insert_ne by exact Hne.
            split; [intros [?|?]; [congruence | assumption] | auto].
        - cbn [gDeviceCount gDeviceList set_devices length].
          rewrite Hcount, u32_succ. f_equal. lia. }
      destruct conf as [c|]; cbv zeta in Hrun; run; injection Hrun as <- _;
        apply Hgoal.
    + unfold device_added in Hrun. run. now injection Hrun as <- _.
  - (* device_removed *)
    destruct (devices s !! cookie) as [d|] eqn:Hd;
      [|now rewrite bind_run, device_removed_dead in Hrun].
    rewrite bind_run, (device_removed_run s cookie d Hd) in Hrun. run.
    injection Hrun as <- _.
    destruct Hok as (Hnd & Hlive & Hcount).
    assert (Hin : cookie ∈ gDeviceList s) by (rewrite Hlive, Hd; eauto).
    rewrite unlink_list_delete_first.
    destruct (NoDup_delete_first cookie _ Hnd) as [Hnd' Hout].
    split; [exact Hnd'|]. split.
    + intros p. cbn [gDeviceList devices].
      destruct (decide (cookie = p)) as [<-|Hne].
      * rewrite lookup_delete_eq. split; [contradiction | intros [x Hx]; discriminate Hx].
      * rewrite lookup_delete_ne by exact Hne. rewrite <- Hlive. split.
        -- apply elem_of_delete_first.
        -- apply elem_of_delete_first_ne. congruence.
    + cbn [gDeviceCount gDeviceList].
      rewrite Hcount, u32_pred. f_equal.
      pose proof (length_delete_first cookie _ Hin). lia.
  - (* yurex_callback *)
    apply yurex_callback_frame in Hrun as (m & -> & Hdom).
    now apply registry_ok_set_devices.
  - (* device_read *)
    rewrite bind_run in Hrun.
    destruct (device_read cookie position length s) as [[[r s1] t1]|] eqn:Hr;
      [|discriminate Hrun].
    run. injection Hrun as <- _.
    now apply device_read_footprint in Hr as [-> _].
  - (* device_write *)
    rewrite bind_run in Hrun.
    destruct (device_write cookie position buffer length s)
      as [[[r s1] t1]|] eqn:Hw; [|discriminate Hrun].
    run. injection Hrun as <- _.
    apply device_write_frame in Hw as (m & -> & Hdom).
    now apply registry_ok_set_devices.
Qed.

(** X1. In every state the driver can reach, the registry chain holds
    each live device exactly once and no freed block, and
    [gDeviceCount] is the length of the chain. *)
Theorem reachable_registry_ok (s : driver) :
  reachable A D s -> registry_ok s.
Proof.
  induction 1 as [lock | s s' o t Hreach IH Hadm Hrun].
  - split; [constructor|]. split; [|reflexivity].
    intros p. cbn. rewrite lookup_empty. split.
    + intros H. now apply elem_of_nil in H.
    + intros [x Hx]. discriminate Hx.
  - exact (exec_registry_ok o s s' t IH Hrun).
Qed.

End Registry.

(** ** Removal and the order of the chain *)

Lemma delete_first_app (dev : ptr) (pre post : list ptr) :
  dev ∉ pre -> delete_first dev (pre ++ dev :: post) = pre ++ post.
Proof.
  induction pre as [|node pre IH]; intros Hout; cbn [app delete_first].
  - now rewrite decide_True by reflexivity.
  - apply not_elem_of_cons in Hout as [Hne Hout].
    rewrite decide_False by congruence. f_equal. now apply IH.
Qed.

(** X2. Removing a live device takes exactly its node out of the registry
    chain, whether it is the head or not: the devices in front of it
    and behind it stay, in their order; the count drops by one, the
    device is freed, and the only calls made are the lock, the unlock,
    the cancellation on the device's pipe and the [free]. *)
Theorem device_removed_keeps_the_others (s : driver) (dev : ptr) (d : device)
    (pre post : list ptr) :
  devices s !! dev = Some d ->
  gDeviceList s = pre ++ dev :: post ->
  dev ∉ pre ->
  device_removed dev s =
    Some (B_OK,
          mkDriver (gLock s) (u32 (gDeviceCount s - 1)) (pre ++ post)
                   (delete dev (devices s)),
          [acquire_sem (gLock s); release_sem (gLock s);
           cancel_queued_transfers (ep d); free dev]).
Proof.
  intros Hd Hchain Hout.
  rewrite (device_removed_run s dev d Hd), unlink_list_delete_first, Hchain.
  now rewrite delete_first_app by exact Hout.
Qed.

Lemma device_removed_keeps_the_others_witness :
  device_removed 1 s_three =
    Some (B_OK,
          mkDriver 3 (u32 (3 - 1)) ([4%positive] ++ [2%positive])
                   (delete 1%positive (devices s_three)),
          [acquire_sem 3; release_sem 3; cancel_queued_transfers 5; free 1]).
Proof.
  apply (device_removed_keeps_the_others s_three 1 d0 [4%positive] [2%positive]).
  - reflexivity.
  - reflexivity.
  - apply not_elem_of_cons. split; [discriminate | apply not_elem_of_nil].
Defined.

(** ** [device_added]: the endpoint it settles on *)

Section FirstEndpoint.

Variable A D : Z.

Lemma endpoint_loop_first (i : Z) (front back : list usb_endpoint_info)
    (e : usb_endpoint_info) (d : device) :
  Forall (fun ep => ~ qualifying A D (descr ep)) front ->
  qualifying A D (descr e) ->
  endpoint_loop A D i (front ++ e :: back) d =
    mkDevice (udev d) i 1 (endpoint_address (descr e)) (handle e)
             (sem d) (bbu d) (anime d).
Proof.
  intros Hfront (H1 & H2 & H3).
  induction Hfront as [|ep front Hep _ IH]; cbn [app endpoint_loop].
  - rewrite decide_False; [reflexivity|]. intros [H|[H|H]]; auto.
  - rewrite decide_True; [exact IH|].
    unfold qualifying in Hep.
    destruct (decide (A = attributes (descr ep))); [|now left].
    destruct (decide (D = Z.land (endpoint_address (descr ep)) D));
      [|right; now left].
    destruct (decide (8 = max_packet_size (descr ep))); [|right; now right].
    exfalso. apply Hep. auto.
Qed.

Lemma interface_loop_first (i : Z) (pre post : list usb_interface_list)
    (entry : usb_interface_list) (intf : usb_interface_info)
    (front back : list usb_endpoint_info) (e : usb_endpoint_info)
    (d : device) :
  ep_detect d = 0 ->
  no_qualifying_interface A D pre ->
  active entry = Some intf ->
  endpoint intf = front ++ e :: back ->
  Forall (fun ep => ~ qualifying A D (descr ep)) front ->
  qualifying A D (descr e) ->
  interface_loop A D i (pre ++ entry :: post) d =
    mkDevice (udev d) (i + Z.of_nat (length pre)) 1
             (endpoint_address (descr e)) (handle e)
             (sem d) (bbu d) (anime d).
Proof.
  intros Hd Hpre Hact Heps Hfront Hq. revert i.
  induction Hpre as [|x pre Hx _ IH]; intros i; cbn [app interface_loop].
  - rewrite Hact, Heps, (endpoint_loop_first i front back e d Hfront Hq).
    cbn [ep_detect length Z.of_nat]. rewrite decide_True by discriminate.
    now rewrite Z.add_0_r.
  - destruct (active x) as [xi|].
    + rewrite endpoint_loop_none by exact Hx.
      rewrite decide_False by (rewrite Hd; auto).
      rewrite IH. f_equal. cbn [length]. lia.
    + rewrite IH. f_equal. cbn [length]. lia.
Qed.

(** X3. [device_added] settles on the first qualifying endpoint of the
    first interface that has one: it records that endpoint's pipe handle
    and address and the interface's index, sets the flag, and starts the
    device with the MODE 0 command, a READ request and one receive armed on
    that pipe, in this order. *)
Theorem device_added_first_endpoint (s : driver) (id : Z) (block : ptr)
    (sem_id : Z) (conf : usb_configuration_info) (set_conf : status_t)
    (pre post : list usb_interface_list) (entry : usb_interface_list)
    (intf : usb_interface_info) (front back : list usb_endpoint_info)
    (e : usb_endpoint_info) :
  devices s !! block = None ->
  interface conf = pre ++ entry :: post ->
  no_qualifying_interface A D pre ->
  active entry = Some intf ->
  endpoint intf = front ++ e :: back ->
  Forall (fun ep => ~ qualifying A D (descr ep)) front ->
  qualifying A D (descr e) ->
  let index := Z.of_nat (length pre) in
  let d := mkDevice id index 1 (endpoint_address (descr e)) (handle e)
                    sem_id 0 1 in
  device_added A D id (Some block) sem_id (Some conf) set_conf s =
    Some ((B_OK, Some block),
          mkDriver (gLock s) (u32 (gDeviceCount s + 1))
                   (block :: gDeviceList s) (<[block := d]> (devices s)),
          [create_sem sem_id; acquire_sem (gLock s); release_sem (gLock s);
           get_nth_configuration id 0; set_configuration id] ++
          (if decide (B_OK <> set_conf)
           then [dprintf "yurex: can not set default configuration"] else []) ++
          [send_request id (Z.shiftl 2 8) index 8 (mode_request 0);
           send_request id (Z.shiftl 2 8) index 8 read_request;
           queue_interrupt (handle e) 8 block]).
Proof.
  intros Hfresh Hifs Hpre Hact Heps Hfront Hq index d.
  rewrite (device_added_run A D s id block sem_id (Some conf) set_conf Hfresh).
  cbv zeta.
  rewrite Hifs,
    (interface_loop_first 0 pre post entry intf front back e
       (fresh_device id sem_id) eq_refl Hpre Hact Heps Hfront Hq).
  cbn [fresh_device udev sem bbu anime ep_detect ep ifno].
  rewrite decide_False by discriminate.
  reflexivity.
Qed.

End FirstEndpoint.

Ltac reach_s_300 :=
  apply (reachable_step 3 128
           (mkDriver 3 1 [2%positive]
                     {[ 2%positive := mkDevice 9 0 1 0x81 77 12 0 1 ]})
           s_300 (Callback 2 0 value_300 8)
           [acquire_sem 12; release_sem 12; queue_interrupt 77 8 2]);
  [ apply (reachable_step 3 128 (init_driver 3) _
             (Added 9 (Some 2%positive) 12 (Some sensor_conf) B_OK)
             [create_sem 12; acquire_sem 3; release_sem 3;
              get_nth_configuration 9 0; set_configuration 9;
              send_request 9 512 0 8 (mode_request 0);
              send_request 9 512 0 8 read_request;
              queue_interrupt 77 8 2]);
    [ apply reachable_init | exact I | reflexivity ]
  | split; [reflexivity | repeat constructor; unfold is_uint8; lia]
  | reflexivity ].

Lemma reachable_registry_ok_witness : registry_ok s_300.
Proof. apply (reachable_registry_ok 3 128 s_300). reach_s_300. Defined.

Lemma device_added_first_endpoint_witness :
  device_added 3 128 9 (Some 2%positive) 12 (Some third_interface_conf) B_OK s0 =
    Some ((B_OK, Some 2%positive),
          mkDriver 3 (u32 (1 + 1)) [2%positive; 1%positive]
                   (<[2%positive := mkDevice 9 2 1 0x82 72 12 0 1]> (devices s0)),
          [create_sem 12; acquire_sem 3; release_sem 3;
           get_nth_configuration 9 0; set_configuration 9;
           send_request 9 512 2 8 (mode_request 0);
           send_request 9 512 2 8 read_request;
           queue_interrupt 72 8 2]).
Proof.
  apply (device_added_first_endpoint 3 128 s0 9 2 12 third_interface_conf B_OK
           [mkInterfaceList None;
            mkInterfaceList
              (Some (mkInterfaceInfo
                       [mkEndpointInfo (mkEndpointDescriptor 0x02 2 64) 70]))]
           []
           (mkInterfaceList
              (Some (mkInterfaceInfo
                       [mkEndpointInfo (mkEndpointDescriptor 0x01 3 8) 71;
                        mkEndpointInfo (mkEndpointDescriptor 0x82 3 8) 72;
                        mkEndpointInfo (mkEndpointDescriptor 0x83 3 8) 73])))
           (mkInterfaceInfo
              [mkEndpointInfo (mkEndpointDescriptor 0x01 3 8) 71;
               mkEndpointInfo (mkEndpointDescriptor 0x82 3 8) 72;
               mkEndpointInfo (mkEndpointDescriptor 0x83 3 8) 73])
           [mkEndpointInfo (mkEndpointDescriptor 0x01 3 8) 71]
           [mkEndpointInfo (mkEndpointDescriptor 0x83 3 8) 73]
           (mkEndpointInfo (mkEndpointDescriptor 0x82 3 8) 72)).
  - reflexivity.
  - reflexivity.
  - repeat constructor. intros (H & _). discriminate H.
  - reflexivity.
  - reflexivity.
  - repeat constructor. intros (_ & H & _). discriminate H.
  - repeat split; reflexivity.
Defined.

(** ** [device_added]: the calls that fail *)

Section AddedFailures.

Variable A D : Z.

(** X4. When [get_nth_configuration] returns [NULL], [device_added]
    reports [B_ERROR] but does not take the device back out: it stays in
    the registry and in the count, live, with the counter at 0, the mode
    at 1 and the flag clear, and no command was sent to it nor a receive
    armed.  When [malloc] fails nothing is done at all. *)
Theorem device_added_failures (s : driver) (id : Z) (block : ptr)
    (sem_id : Z) (conf : option usb_configuration_info) (set_conf : status_t) :
  devices s !! block = None ->
  (exists s' t,
     device_added A D id (Some block) sem_id None set_conf s =
       Some ((B_ERROR, Some block), s', t) /\
     gDeviceList s' = block :: gDeviceList s /\
     gDeviceCount s' = u32 (gDeviceCount s + 1) /\
     devices s' = <[block := mkDevice id 0 0 0 0 sem_id 0 1]> (devices s) /\
     t = [create_sem sem_id; acquire_sem (gLock s); release_sem (gLock s);
          get_nth_configuration id 0]) /\
  device_added A D id None sem_id conf set_conf s = Some ((B_ERROR, None), s, []).
Proof.
  intros Hfresh. split; [|reflexivity].
  rewrite (device_added_run A D s id block sem_id None set_conf Hfresh).
  cbv zeta. eexists. eexists. split; [reflexivity|].
  repeat split; reflexivity.
Qed.

End AddedFailures.

Lemma device_added_failures_witness :
  (exists s' t,
     device_added 3 128 9 (Some 2%positive) 12 None B_OK s0 =
       Some ((B_ERROR, Some 2%positive), s', t) /\
     gDeviceList s' = 2%positive :: gDeviceList s0 /\
     gDeviceCount s' = u32 (gDeviceCount s0 + 1) /\
     devices s' = <[2%positive := mkDevice 9 0 0 0 0 12 0 1]> (devices s0) /\
     t = [create_sem 12; acquire_sem (gLock s0); release_sem (gLock s0);
          get_nth_configuration 9 0]) /\
  device_added 3 128 9 None 12 (Some sensor_conf) B_OK s0 =
    Some ((B_ERROR, None), s0, []).
Proof.
  apply (device_added_failures 3 128 s0 9 2 12 (Some sensor_conf) B_OK).
  reflexivity.
Defined.
